(** * BCI-dockerfile-generator: the image descriptors of [bci_build/package.py]

    A shallow embedding of the descriptor classes ([BaseContainerImage],
    [LanguageStackContainer], [ApplicationStackContainer], [OsContainer]),
    of their derived properties (build tags, package-list renderings, title
    and description) and of [write_files_to_folder], followed by the
    properties the specification states about them.

    Python values are modelled as follows.
    - [str] is [string]; f-strings are concatenations with [+:+];
      [sep.join(xs)] is [String.concat sep xs].
    - [Union[str, int]] is [str_or_int]; [str(n)] is stdpp's [pretty].
    - an [enum.Enum] is an inductive type, its [__str__] a function.
    - a [dict] whose iteration order is observed is an association list in
      insertion order.
    - a raised exception is the [Raise] branch of [result].
    - the contents of the regular files are a [gmap] from files to contents;
      what a path names is a function of the path, [lookup_path];
    - the concurrent writes are a relation between the file system before
      and after. *)

From Stdlib Require Import String Ascii List ZArith Lia Bool Permutation.
From stdpp Require Import base option list gmap strings pretty.

Open Scope string_scope.
Open Scope list_scope.

(** ** Exceptions *)

Inductive exn :=
| ValueError (msg : string)
| IndexError (msg : string)
| OSError
| Exception (msg : string).

Inductive result (A : Type) :=
| Ok (a : A)
| Raise (e : exn).

Arguments Ok {A} a.
Arguments Raise {A} e.

Global Instance result_ret : MRet result := fun A a => Ok a.

Global Instance result_bind : MBind result := fun A B k r =>
  match r with
  | Ok a => k a
  | Raise e => Raise e
  end.

Definition raises {A} (r : result A) : Prop :=
  match r with Ok _ => False | Raise _ => True end.


(** ** Python truthiness *)

Definition str_bool (s : string) : bool :=
  match s with
  | EmptyString => false
  | String _ _ => true
  end.

Definition list_bool {A} (l : list A) : bool :=
  match l with
  | [] => false
  | _ :: _ => true
  end.

Inductive str_or_int :=
| Str (s : string)
| Int (n : Z).

Definition str_or_int_bool (v : str_or_int) : bool :=
  match v with
  | Str s => str_bool s
  | Int n => negb (n =? 0)%Z
  end.

(** [str(v)] *)
Definition str (v : str_or_int) : string :=
  match v with
  | Str s => s
  | Int n => pretty n
  end.

(** [a or b] on strings *)
Definition str_or (a b : string) : string :=
  if str_bool a then a else b.

(** Characters that a Rocq string literal cannot hold directly. *)
Definition dq : string := String "034"%char EmptyString.
Definition nl : string := String "010"%char EmptyString.

(** ** Enumerations *)

Inductive ReleaseStage := BETA | RELEASED.

Inductive ImageType := SLE_BCI | APPLICATION.

Inductive BuildType := DOCKER | KIWI.

Inductive PackageType := DELETE | UNINSTALL | BOOTSTRAP | IMAGE.

Definition PackageType_str (t : PackageType) : string :=
  match t with
  | DELETE => "delete"
  | UNINSTALL => "uninstall"
  | BOOTSTRAP => "bootstrap"
  | IMAGE => "image"
  end.

Global Instance PackageType_eq_dec : EqDecision PackageType.
Proof. solve_decision. Defined.

Global Instance BuildType_eq_dec : EqDecision BuildType.
Proof. solve_decision. Defined.

(** ** Packages and replacements *)

Module Package.
Record t := mk { name : string; pkg_type : PackageType }.
(** [__str__] *)
Definition str (p : t) : string := name p.
End Package.

(** An element of [package_list : Union[List[str], List[Package]]]. *)
Inductive pkg_entry :=
| PStr (s : string)
| PPkg (p : Package.t).

(** [str(pkg)] for an element of the package list *)
Definition pkg_entry_str (p : pkg_entry) : string :=
  match p with
  | PStr s => s
  | PPkg p => Package.str p
  end.

Inductive ParseVersion := major | minor | patch | patch_update | offset.

Record Replacement := {
  regex_in_dockerfile : string;
  package_name : string;
  parse_version : option ParseVersion
}.

(** File contents: [Union[str, bytes]] *)
Inductive file_contents :=
| Text (s : string)
| Bytes (b : list Byte.byte).

(** ** The descriptor classes *)

Record BaseContainerImage := {
  name : string;
  pretty_name : string;
  ibs_package : string;
  sp_version : Z;
  release_stage : ReleaseStage;
  from_image : option string;
  is_latest : bool;
  entrypoint : option string;
  env : list (string * str_or_int);
  replacements_via_service : list Replacement;
  tech_preview : bool;
  extra_labels : list (string * string);
  package_list : list pkg_entry;
  custom_end : string;
  config_sh_script : string;
  maintainer : string;
  extra_files : list (string * file_contents);
  additional_names : list string;
  custom_labelprefix_end : string;
  custom_description : string;
  build_recipe_type : BuildType
}.

(** The fields [LanguageStackContainer] adds to the inherited ones. *)
Record LanguageStackContainer := {
  base :> BaseContainerImage;
  version : str_or_int;
  additional_versions : list string;
  _registry_prefix : string
}.

(** Default of the dataclass field [_registry_prefix]. *)
Definition _registry_prefix_default : string := "bci".

(** An instance of one of the three concrete classes.
    [ApplicationStackContainer] declares no field of its own. *)
Inductive Image :=
| LanguageStack (c : LanguageStackContainer)
| ApplicationStack (c : LanguageStackContainer)
| Os (c : BaseContainerImage).

Definition base_of (i : Image) : BaseContainerImage :=
  match i with
  | LanguageStack c => base c
  | ApplicationStack c => base c
  | Os c => c
  end.

Coercion base_of : Image >-> BaseContainerImage.

(** *** Construction: [__post_init__] *)

Definition BaseContainerImage__post_init__ (self : BaseContainerImage)
  : result BaseContainerImage :=
  if negb (list_bool (package_list self)) then
    Raise (ValueError ("No packages were added to " +:+ pretty_name self +:+ "."))
  else if str_bool (config_sh_script self) && str_bool (custom_end self) then
    Raise (ValueError
      "Cannot specify both a custom_end and a config.sh script! Use just config_sh_script.")
  else Ok self.

Definition LanguageStackContainer__post_init__ (self : LanguageStackContainer)
  : result LanguageStackContainer :=
  if negb (str_or_int_bool (version self)) then
    Raise (ValueError "A language stack container requires a version")
  else Ok self.

Definition set_registry_prefix (p : string) (self : LanguageStackContainer)
  : LanguageStackContainer :=
  {| base := base self;
     version := version self;
     additional_versions := additional_versions self;
     _registry_prefix := p |}.

Definition ApplicationStackContainer__post_init__ (self : LanguageStackContainer)
  : result LanguageStackContainer :=
  let self := set_registry_prefix "suse" self in
  LanguageStackContainer__post_init__ self.

(** The generated [__init__] stores its arguments (the record) and then runs
    the [__post_init__] of the class being instantiated. *)
Definition new_OsContainer (args : BaseContainerImage) : result Image :=
  self ← BaseContainerImage__post_init__ args; Ok (Os self).

Definition new_LanguageStackContainer (args : LanguageStackContainer) : result Image :=
  self ← LanguageStackContainer__post_init__ args; Ok (LanguageStack self).

Definition new_ApplicationStackContainer (args : LanguageStackContainer) : result Image :=
  self ← ApplicationStackContainer__post_init__ args; Ok (ApplicationStack self).

(** ** Derived properties of [BaseContainerImage] *)

Definition ibs_project (self : BaseContainerImage) : string :=
  "SUSE:SLE-15-SP" +:+ pretty (sp_version self) +:+ ":Update:BCI".

Definition dockerfile_custom_end (self : BaseContainerImage) : string :=
  if str_bool (custom_end self) then custom_end self
  else if str_bool (config_sh_script self) then "RUN " +:+ config_sh_script self
  else "".

(** The text of [config.sh] around the year and the script. *)
Definition config_sh_head : string :=
  "#!/bin/bash -e

# Copyright (c) ".

Definition config_sh_middle : string :=
  " SUSE LLC, Nuernberg, Germany.
#
# All modifications and additions to the file contributed by third parties
# remain the property of their copyright owners, unless otherwise agreed
# upon. The license for this file, and modifications and additions to the
# file, is the same license as for the pristine package itself (unless the
# license for the pristine package is not an Open Source License, in which
# case the license is the MIT License). An " +:+ dq +:+ "Open Source License" +:+ dq +:+ " is a
# license that conforms to the Open Source Definition (Version 1.9)
# published by the Open Source Initiative.

test -f /.kconfig && . /.kconfig
test -f /.profile && . /.profile

echo " +:+ dq +:+ "Configure image: [$kiwi_iname]..." +:+ dq +:+ "

#======================================
# Setup baseproduct link
#--------------------------------------
if [ ! -e /etc/products.d/baseproduct ]; then
    suseSetupProduct
fi

#======================================
# Import repositories' keys
#--------------------------------------
suseImportBuildKey

".

Definition config_sh_tail : string :=
  "

exit 0
".

(** [config_sh]; [year] is [datetime.datetime.now().date().strftime(%Y)],
    which the property reads from the clock. *)
Definition config_sh (year : string) (self : BaseContainerImage) : result string :=
  if negb (str_bool (config_sh_script self)) then
    if str_bool (custom_end self) then
      Raise (ValueError
        "This image cannot be build as a kiwi image, it has a `custom_end` set.")
    else Ok ""
  else
    Ok (config_sh_head +:+ year +:+ config_sh_middle
        +:+ config_sh_script self +:+ config_sh_tail).

(** *** Package-list renderings *)

(** The loop of [packages] that rejects phase-tagged entries: the first
    offending entry raises. *)
Fixpoint packages_check (l : list pkg_entry) : result unit :=
  match l with
  | [] => Ok tt
  | pkg :: l' =>
      match pkg with
      | PPkg p =>
          if negb (bool_decide (Package.pkg_type p = IMAGE)) then
            Raise (ValueError ("Cannot add a package of type "
                               +:+ PackageType_str (Package.pkg_type p)
                               +:+ " into a Dockerfile based build."))
          else packages_check l'
      | PStr _ => packages_check l'
      end
  end.

Definition packages (self : BaseContainerImage) : result string :=
  _ ← packages_check (package_list self);
  Ok (String.concat " " (map pkg_entry_str (package_list self))).

(** [create_pkg_filter_func(pkg_type)], the closure applied to [p] *)
Definition create_pkg_filter_func (pkg_type : PackageType) (p : pkg_entry) : bool :=
  match p with
  | PStr _ => bool_decide (pkg_type = IMAGE)
  | PPkg p => bool_decide (Package.pkg_type p = pkg_type)
  end.

Definition PKG_TYPES : list PackageType := [DELETE; BOOTSTRAP; IMAGE; UNINSTALL].

(** The text appended to [res] for one non-empty phase. *)
Definition kiwi_packages_block (pkg_type : PackageType) (pkg_list : list pkg_entry)
  : string :=
  ("  <packages type=" +:+ dq +:+ PackageType_str pkg_type +:+ dq +:+ ">" +:+ nl
    +:+ "    ")
  +:+ String.concat (nl +:+ "    ")
        (map (fun pkg => "<package name=" +:+ dq +:+ pkg_entry_str pkg +:+ dq +:+ "/>")
             pkg_list)
  +:+ (nl +:+ "  </packages>" +:+ nl).

Definition kiwi_packages (self : BaseContainerImage) : string :=
  let lists :=
    map (fun pkg_type =>
           List.filter (create_pkg_filter_func pkg_type) (package_list self))
        PKG_TYPES in
  fold_left
    (fun res '(pkg_list, pkg_type) =>
       if (0 <? length pkg_list)%nat
       then res +:+ kiwi_packages_block pkg_type pkg_list
       else res)
    (combine lists PKG_TYPES)
    "".

(** *** Title and description *)

Definition description (self : BaseContainerImage) : string :=
  str_or (custom_description self)
         ("Image containing " +:+ pretty_name self
          +:+ " based on the SLE Base Container Image.").

Definition title (self : BaseContainerImage) : string :=
  "SLE BCI " +:+ pretty_name self +:+ " Container Image".

Definition labelprefix (self : BaseContainerImage) : string :=
  "com.suse.bci." +:+ str_or (custom_labelprefix_end self) (name self).

(** ** Properties the concrete classes implement *)

Definition LanguageStackContainer_version_label (self : LanguageStackContainer)
  : string :=
  str (version self).

Definition OsContainer_version_label (self : BaseContainerImage) : string :=
  "%OS_VERSION_ID_SP%.%RELEASE%".

Definition version_label (i : Image) : string :=
  match i with
  | LanguageStack c | ApplicationStack c => LanguageStackContainer_version_label c
  | Os c => OsContainer_version_label c
  end.

Definition nvr (i : Image) : string :=
  match i with
  | LanguageStack c | ApplicationStack c => name c +:+ "-" +:+ str (version c)
  | Os c => name c
  end.

Definition image_type (i : Image) : ImageType :=
  match i with
  | LanguageStack _ => SLE_BCI
  | ApplicationStack _ => APPLICATION
  | Os _ => SLE_BCI
  end.

(** The tags one pass of the loop of [LanguageStackContainer.build_tags]
    adds for [name]. *)
Definition LanguageStackContainer_tags_of_name (self : LanguageStackContainer)
  (name : string) : list string :=
  [_registry_prefix self +:+ "/" +:+ name +:+ ":"
     +:+ LanguageStackContainer_version_label self]
  ++ (if is_latest self
      then [_registry_prefix self +:+ "/" +:+ name +:+ ":latest"]
      else [])
  ++ [_registry_prefix self +:+ "/" +:+ name +:+ ":"
        +:+ LanguageStackContainer_version_label self +:+ "-%RELEASE%"]
  ++ map (fun ver => _registry_prefix self +:+ "/" +:+ name +:+ ":" +:+ ver)
         (additional_versions self).

Definition LanguageStackContainer_build_tags (self : LanguageStackContainer)
  : list string :=
  fold_left
    (fun tags name => tags ++ LanguageStackContainer_tags_of_name self name)
    ([name self] ++ additional_names self)
    [].

(** The tags one pass of the loop of [OsContainer.build_tags] adds. *)
Definition OsContainer_tags_of_name (self : BaseContainerImage) (name : string)
  : list string :=
  ["bci/bci-" +:+ name +:+ ":%OS_VERSION_ID_SP%";
   "bci/bci-" +:+ name +:+ ":" +:+ OsContainer_version_label self]
  ++ (if is_latest self then ["bci/bci-" +:+ name +:+ ":latest"] else []).

Definition OsContainer_build_tags (self : BaseContainerImage) : list string :=
  fold_left
    (fun tags name => tags ++ OsContainer_tags_of_name self name)
    ([name self] ++ additional_names self)
    [].

Definition build_tags (i : Image) : list string :=
  match i with
  | LanguageStack c | ApplicationStack c => LanguageStackContainer_build_tags c
  | Os c => OsContainer_build_tags c
  end.

(** [reference]: [self.build_tags[0]] raises [IndexError] on an empty list. *)
Definition reference (i : Image) : result string :=
  match build_tags i with
  | [] => Raise (IndexError "list index out of range")
  | tag :: _ => Ok ("registry.suse.com/" +:+ tag)
  end.

(** ** Writing the files of a descriptor *)

(** *** Paths and files *)

(** What a path names to [open(path, "w")] and to [os.path.exists(path)]:
    - [Slot file]: the regular file [file], or the free name of [file] in a
      directory that exists; opening it for writing succeeds and creates or
      truncates [file]. Two paths that name one file ([x] and [./x], a link
      and its target) have the same slot;
    - [Occupied]: something that exists and cannot be opened for writing, a
      directory or a file without permission; [open] raises [OSError];
    - [Unreachable]: nothing, where nothing can be created, for lack of the
      parent directory or of permission; [open] raises [OSError]. *)
Inductive location :=
| Slot (file : string)
| Occupied
| Unreachable.

Global Instance location_eq_dec : EqDecision location.
Proof. solve_decision. Defined.

(** The contents of the regular files, by file. *)
Abbreviation filesystem := (gmap string file_contents).

Definition startswith_sep (s : string) : bool :=
  match s with
  | String c _ => Ascii.eqb c "/"
  | EmptyString => false
  end.

Fixpoint endswith_sep (s : string) : bool :=
  match s with
  | EmptyString => false
  | String c EmptyString => Ascii.eqb c "/"
  | String _ s' => endswith_sep s'
  end.

(** [os.path.join(a, b)] of [posixpath] *)
Definition os_path_join (a b : string) : string :=
  if startswith_sep b then b
  else if negb (str_bool a) || endswith_sep a then a +:+ b
  else a +:+ "/" +:+ b.

Inductive open_mode := mode_w | mode_bw.

(** A scheduled call [write_to_file(fname, contents, mode)]. *)
Record task := {
  task_fname : string;
  task_contents : file_contents;
  task_mode : open_mode
}.

Definition mode_of (contents : file_contents) : open_mode :=
  match contents with
  | Text _ => mode_w
  | Bytes _ => mode_bw
  end.

Section WriteFiles.

(** What the paths name. [write_files_to_folder] creates and truncates
    regular files and nothing else, so this does not change while it runs. *)
Variable lookup_path : string -> location.

(** The three templates of [bci_build.templates], each taken as its
    [render(image=self)]; a render may raise. [year] is what [config_sh]
    reads from the clock. *)
Variables DOCKERFILE_TEMPLATE KIWI_TEMPLATE SERVICE_TEMPLATE : Image -> result string.
Variable year : string.

(** [os.path.exists(p)] *)
Definition os_path_exists (p : string) (fs : filesystem) : bool :=
  match lookup_path p with
  | Slot file => bool_decide (is_Some (fs !! file))
  | Occupied => true
  | Unreachable => false
  end.

(** The file that [write_to_file] of the task opens with
    [aiofiles.open(os.path.join(dest, fname), mode)], [None] when the open
    raises [OSError]. *)
Definition task_file (dest : string) (t : task) : option string :=
  match lookup_path (os_path_join dest (task_fname t)) with
  | Slot file => Some file
  | Occupied | Unreachable => None
  end.

(** The part of [write_files_to_folder] that writes the build recipe.
    [asyncio.ensure_future] puts a write on the event loop: [tasks] are the
    writes scheduled so far, and they stay scheduled when a later render
    raises. *)
Definition write_recipe (self : Image) (files : list string) (tasks : list task)
  : result (list string) * list task :=
  match build_recipe_type self with
  | DOCKER =>
      let fname := "Dockerfile" in
      match DOCKERFILE_TEMPLATE self with
      | Raise e => (Raise e, tasks)
      | Ok contents =>
          let tasks := tasks ++ [Build_task fname (Text contents) mode_w] in
          let files := files ++ [fname] in
          (Ok files, tasks)
      end
  | KIWI =>
      let fname := ibs_package self +:+ ".kiwi" in
      match KIWI_TEMPLATE self with
      | Raise e => (Raise e, tasks)
      | Ok contents =>
          let tasks := tasks ++ [Build_task fname (Text contents) mode_w] in
          let files := files ++ [fname] in
          match config_sh year self with
          | Raise e => (Raise e, tasks)
          | Ok cond =>
              if str_bool cond then
                match config_sh year self with
                | Raise e => (Raise e, tasks)
                | Ok contents =>
                    let tasks :=
                      tasks ++ [Build_task "config.sh" (Text contents) mode_w] in
                    let files := files ++ ["config.sh"] in
                    (Ok files, tasks)
                end
              else (Ok files, tasks)
          end
      end
  end.

(** The loop over [self.extra_files.items()]. *)
Definition write_extra_files (self : Image) (files : list string) (tasks : list task)
  : list string * list task :=
  fold_left
    (fun '(files, tasks) '(fname, contents) =>
       let mode := mode_of contents in
       let files := files ++ [fname] in
       let tasks := tasks ++ [Build_task fname contents mode] in
       (files, tasks))
    (extra_files self)
    (files, tasks).

(** Everything [write_files_to_folder] does before [asyncio.gather]: the
    filenames to return, or the exception of a render, and the writes
    scheduled. *)
Definition schedule_writes (self : Image) (dest : string) (fs : filesystem)
  : result (list string) * list task :=
  let files := ["_service"] in
  let tasks := [] in
  match write_recipe self files tasks with
  | (Raise e, tasks) => (Raise e, tasks)
  | (Ok files, tasks) =>
      match SERVICE_TEMPLATE self with
      | Raise e => (Raise e, tasks)
      | Ok contents =>
          let tasks := tasks ++ [Build_task "_service" (Text contents) mode_w] in
          let changes_file_name := ibs_package self +:+ ".changes" in
          let changes_file_dest := os_path_join dest changes_file_name in
          let '(files, tasks) :=
            if negb (os_path_exists changes_file_dest fs) then
              (files ++ [changes_file_name],
               tasks ++ [Build_task changes_file_name (Text "") mode_w])
            else (files, tasks) in
          let '(files, tasks) := write_extra_files self files tasks in
          (Ok files, tasks)
      end
  end.

(** What [write_files_to_folder] returns or raises: the exception of a
    render; [OSError] from [asyncio.gather] when the open of some scheduled
    write raises; the filenames otherwise. A write to a file that was
    opened is taken to succeed. *)
Definition write_files_to_folder (self : Image) (dest : string) (fs : filesystem)
  : result (list string) :=
  match schedule_writes self dest fs with
  | (Raise e, _) => Raise e
  | (Ok files, tasks) =>
      if forallb (fun t => bool_decide (is_Some (task_file dest t))) tasks
      then Ok files
      else Raise OSError
  end.





(** One schedule of the writes: each runs to its end before the next
    starts. *)
Definition run_in_order (dest : string) (tasks : list task) (fs : filesystem)
  : filesystem :=
  fold_left
    (fun fs t =>
       match task_file dest t with
       | Some file => <[file := task_contents t]> fs
       | None => fs
       end)
    tasks fs.

End WriteFiles.

(** ** Environment, labels and additional tags *)

(** [env_lines] *)
Definition env_lines (self : BaseContainerImage) : string :=
  String.concat nl
    (map (fun '(k, v) => "ENV " +:+ k +:+ "=" +:+ dq +:+ str v +:+ dq)
         (env self)).

(** [kiwi_env_entry] *)
Definition kiwi_env_entry (self : BaseContainerImage) : string :=
  if negb (list_bool (env self)) then ""
  else
    ("        <environment>" +:+ nl +:+ "          ")
    +:+ String.concat (nl +:+ "          ")
          (map (fun '(k, v) =>
                  "<env name=" +:+ dq +:+ k +:+ dq +:+ " value=" +:+ dq
                  +:+ str v +:+ dq +:+ "/>")
               (env self))
    +:+ (nl +:+ "        </environment>" +:+ nl).

(** [extra_label_lines] *)
Definition extra_label_lines (self : BaseContainerImage) : string :=
  String.concat nl
    (map (fun '(k, v) => "LABEL " +:+ k +:+ "=" +:+ dq +:+ v +:+ dq)
         (extra_labels self)).

(** [extra_label_xml_lines] *)
Definition extra_label_xml_lines (self : BaseContainerImage) : string :=
  String.concat nl
    (map (fun '(k, v) =>
            "            <label name=" +:+ dq +:+ k +:+ dq +:+ " value=" +:+ dq
            +:+ v +:+ dq +:+ "/>")
         (extra_labels self)).

(** [s.split(sep)] for a separator of one character *)
Fixpoint split (sep : ascii) (s : string) : list string :=
  match s with
  | EmptyString => [EmptyString]
  | String c s' =>
      if Ascii.eqb c sep then EmptyString :: split sep s'
      else
        match split sep s' with
        | [] => [String c EmptyString]
        | h :: t => String c h :: t
        end
  end.

(** [s.endswith(suffix)]: some tail of [s] is [suffix] *)
Fixpoint endswith (s suffix : string) : bool :=
  if String.eqb s suffix then true
  else
    match s with
    | EmptyString => false
    | String _ s' => endswith s' suffix
    end.

(** The loop of [kiwi_additional_tags]; [path, tag = buildtag.split(":")]
    raises [ValueError] unless the split has exactly two parts. *)
Fixpoint kiwi_additional_tags_loop (name : string) (buildtags : list string)
  (extra_tags : list string) : result (list string) :=
  match buildtags with
  | [] => Ok extra_tags
  | buildtag :: buildtags' =>
      match split ":" buildtag with
      | [path; tag] =>
          kiwi_additional_tags_loop name buildtags'
            (if endswith path name then extra_tags ++ [tag] else extra_tags)
      | [] | [_] =>
          Raise (ValueError "not enough values to unpack (expected 2, got 1)")
      | _ :: _ :: _ :: _ =>
          Raise (ValueError "too many values to unpack (expected 2)")
      end
  end.

(** [kiwi_additional_tags]; [None] is [Ok None]. *)
Definition kiwi_additional_tags (i : Image) : result (option string) :=
  extra_tags ← kiwi_additional_tags_loop (name i) (tail (build_tags i)) [];
  Ok (if list_bool extra_tags
      then Some (String.concat "," extra_tags)
      else None).

(** [s] holds no colon. *)
Fixpoint no_colon (s : string) : bool :=
  match s with
  | EmptyString => true
  | String c s' => negb (Ascii.eqb c ":") && no_colon s'
  end.

(** No component of the build tags of [i] holds a colon. *)
Definition colon_free (i : Image) : bool :=
  forallb no_colon (name i :: additional_names i)
  && match i with
     | LanguageStack c | ApplicationStack c =>
         no_colon (_registry_prefix c)
         && no_colon (LanguageStackContainer_version_label c)
         && forallb no_colon (additional_versions c)
     | Os _ => true
     end.

(** A build tag whose path and tag part hold no colon. *)
Definition tag_splits (buildtag : string) : Prop :=
  exists path tag,
    buildtag = path +:+ ":" +:+ tag
    /\ no_colon path = true /\ no_colon tag = true.

(** The part after the colon of every build tag of the primary name but
    the first. *)
Definition primary_tags_after_first (i : Image) : list string :=
  match i with
  | LanguageStack c | ApplicationStack c =>
      (if is_latest c then ["latest"] else [])
      ++ [LanguageStackContainer_version_label c +:+ "-%RELEASE%"]
      ++ additional_versions c
  | Os c =>
      [OsContainer_version_label c]
      ++ (if is_latest c then ["latest"] else [])
  end.

(** ** Notions the specification uses *)

(** The install phase an entry of the package list is tagged with; a plain
    string carries no tag and counts as the default image phase. *)
Definition phase_of (p : pkg_entry) : PackageType :=
  match p with
  | PStr _ => IMAGE
  | PPkg p => Package.pkg_type p
  end.

(** The entries of [l] of phase [t], in the order of [l]. *)
Definition packages_of_phase (t : PackageType) (l : list pkg_entry) : list pkg_entry :=
  List.filter (fun p => bool_decide (phase_of p = t)) l.

(** The name of an entry of the package list: the plain string, or the name
    of the tagged package. *)
Definition entry_name (e : pkg_entry) : string :=
  match e with
  | PStr s => s
  | PPkg p => Package.name p
  end.

(** The value of the [type] attribute of the [<packages>] element of kiwi
    for each phase. *)
Definition phase_attribute (t : PackageType) : string :=
  match t with
  | DELETE => "delete"
  | BOOTSTRAP => "bootstrap"
  | IMAGE => "image"
  | UNINSTALL => "uninstall"
  end.

(** One line of a grouped block: the [<package>] element of the package
    [n], indented by four spaces. *)
Definition package_element (n : string) : string :=
  "    <package name=" +:+ dq +:+ n +:+ dq +:+ "/>" +:+ nl.

(** The grouped block of the phase [t] for the packages [ns]: the opening
    [<packages>] line, one line for each package in order, the closing
    line. *)
Definition packages_element (t : PackageType) (ns : list string) : string :=
  "  <packages type=" +:+ dq +:+ phase_attribute t +:+ dq +:+ ">" +:+ nl
  +:+ String.concat "" (map package_element ns)
  +:+ "  </packages>" +:+ nl.

(** The kiwi rendering as the specification words it: one grouped block for
    each of the four phases that has packages, none for the others. *)
Definition kiwi_packages_spec (self : BaseContainerImage) : string :=
  String.concat ""
    (map (fun t => packages_element t
                     (map entry_name (packages_of_phase t (package_list self))))
         (List.filter
            (fun t => list_bool (packages_of_phase t (package_list self)))
            [DELETE; BOOTSTRAP; IMAGE; UNINSTALL])).

(** What the specification has for the phase [t] of the list [l]: its
    grouped block, or nothing when the phase has no packages. *)
Definition phase_element (t : PackageType) (l : list pkg_entry) : string :=
  if list_bool (packages_of_phase t l)
  then packages_element t (map entry_name (packages_of_phase t l))
  else "".

(** What the kiwi rendering holds for phase [t]: its block, or nothing when
    the phase has no packages. *)
Definition phase_block (t : PackageType) (l : list pkg_entry) : string :=
  if list_bool (packages_of_phase t l)
  then kiwi_packages_block t (packages_of_phase t l)
  else "".

(** The names an image is published under. *)
Definition names (self : BaseContainerImage) : list string :=
  name self :: additional_names self.

(** The additional version aliases; [OsContainer] has no such field. *)
Definition version_aliases (i : Image) : list string :=
  match i with
  | LanguageStack c | ApplicationStack c => additional_versions c
  | Os _ => []
  end.

(** The registry path of [n]: what precedes the colon in a build tag. *)
Definition registry_path (i : Image) (n : string) : string :=
  match i with
  | LanguageStack c | ApplicationStack c => _registry_prefix c +:+ "/" +:+ n
  | Os _ => "bci/bci-" +:+ n
  end.

(** [tag] is a build tag for the name [n]. *)
Definition tag_of_name (i : Image) (n : string) (tag : string) : Prop :=
  exists t, tag = registry_path i n +:+ ":" +:+ t.

(** The name of the changelog of a descriptor. *)
Definition changes_file_name (self : BaseContainerImage) : string :=
  ibs_package self +:+ ".changes".





Fixpoint last_char (s : string) : option ascii :=
  match s with
  | EmptyString => None
  | String c EmptyString => Some c
  | String _ s' => last_char s'
  end.

(** ** Entries of the catalog

    Four of the descriptors the module instantiates, with the defaults of
    the dataclass fields written out. *)

Definition maintainer_default : string := "SUSE LLC (https://www.suse.com/)".

(** [MINIMAL_CONTAINERS], service pack 3: the arguments given to [OsContainer]. *)
Definition MINIMAL_SP3_args : BaseContainerImage := {|
  name := "minimal";
  pretty_name := "%OS_VERSION% Minimal";
  ibs_package := "minimal";
  sp_version := 3;
  release_stage := RELEASED;
  from_image := Some "bci/bci-micro";
  is_latest := true;
  entrypoint := None;
  env := [];
  replacements_via_service := [];
  tech_preview := true;
  extra_labels := [];
  package_list :=
    map (fun n => PPkg (Package.mk n BOOTSTRAP))
        ["rpm-ndb"; "perl-base"; "distribution-release"]
    ++ map (fun n => PPkg (Package.mk n DELETE))
        ["grep"; "diffutils"; "info"; "fillup"; "libzio1"];
  custom_end := "";
  config_sh_script := "";
  maintainer := maintainer_default;
  extra_files := [];
  additional_names := [];
  custom_labelprefix_end := "";
  custom_description :=
    "Image containing a minimal environment for containers based on the SLE Base Container Image.";
  build_recipe_type := KIWI
|}.

Definition GOLANG_constraints : string :=
  "<constraints>
  <hardware>
    <disk>
      <size unit=" +:+ dq +:+ "G" +:+ dq +:+ ">6</size>
    </disk>
  </hardware>
</constraints>
".

(** [GOLANG_IMAGES], version 1.17 on service pack 3: the arguments given to
    [LanguageStackContainer]. *)
Definition GOLANG_1_17_SP3_args : LanguageStackContainer := {|
  base := {|
    name := "golang";
    pretty_name := "Golang 1.17";
    ibs_package := "golang-1.17";
    sp_version := 3;
    release_stage := RELEASED;
    from_image := Some "";
    is_latest := true;
    entrypoint := None;
    env :=
      [("GOLANG_VERSION", Str "1.17");
       ("PATH", Str "/go/bin:/usr/local/go/bin:/root/go/bin/:/usr/local/sbin:/usr/local/bin:/usr/sbin:/usr/bin:/sbin:/bin")];
    replacements_via_service := [];
    tech_preview := true;
    extra_labels := [];
    package_list :=
      map (fun n => PPkg (Package.mk n BOOTSTRAP))
          ["go1.17"; "distribution-release"; "make"];
    custom_end := "";
    config_sh_script := "";
    maintainer := maintainer_default;
    extra_files := [("_constraints", Text GOLANG_constraints)];
    additional_names := [];
    custom_labelprefix_end := "";
    custom_description :=
      "Image containing the Golang 1.17 development environment based on the SLE Base Container Image.";
    build_recipe_type := KIWI
  |};
  version := Str "1.17";
  additional_versions := [];
  _registry_prefix := _registry_prefix_default
|}.

(** [NODE_CONTAINERS], version 14 on service pack 4: the arguments given to
    [LanguageStackContainer]. *)
Definition NODE_14_SP4_args : LanguageStackContainer := {|
  base := {|
    name := "nodejs";
    pretty_name := "Node.js 14";
    ibs_package := "nodejs-14-image";
    sp_version := 4;
    release_stage := RELEASED;
    from_image := Some "";
    is_latest := false;
    entrypoint := None;
    env := [("NODE_VERSION", Int 14)];
    replacements_via_service := [];
    tech_preview := true;
    extra_labels := [];
    package_list :=
      [PStr "nodejs14"; PStr "npm14"; PStr "git-core";
       PStr "update-alternatives"; PStr "distribution-release"];
    custom_end := "";
    config_sh_script := "";
    maintainer := maintainer_default;
    extra_files := [];
    additional_names := ["node"];
    custom_labelprefix_end := "";
    custom_description :=
      "Image containing the Node.js 14 development environment based on the SLE Base Container Image.";
    build_recipe_type := DOCKER
  |};
  version := Str "14";
  additional_versions := [];
  _registry_prefix := _registry_prefix_default
|}.

Definition THREE_EIGHT_NINE_DS_custom_end : string :=
  "EXPOSE 3389 3636

RUN mkdir -p /data/config && \
    mkdir -p /data/ssca && \
    mkdir -p /data/run && \
    mkdir -p /var/run/dirsrv && \
    ln -s /data/config /etc/dirsrv/slapd-localhost && \
    ln -s /data/ssca /etc/dirsrv/ssca && \
    ln -s /data/run /var/run/dirsrv

VOLUME /data

HEALTHCHECK --start-period=5m --timeout=5s --interval=5s --retries=2 \
    CMD /usr/lib/dirsrv/dscontainer -H

CMD [ " +:+ dq +:+ "/usr/lib/dirsrv/dscontainer" +:+ dq +:+ ", " +:+ dq +:+ "-r" +:+ dq +:+ " ]
".

(** [THREE_EIGHT_NINE_DS]: the arguments given to [ApplicationStackContainer]. *)
Definition THREE_EIGHT_NINE_DS_args : LanguageStackContainer := {|
  base := {|
    name := "389-ds";
    pretty_name := "389 Directory Server";
    ibs_package := "389-ds-container";
    sp_version := 4;
    release_stage := BETA;
    from_image := Some "";
    is_latest := true;
    entrypoint := None;
    env := [];
    replacements_via_service := [];
    tech_preview := true;
    extra_labels := [];
    package_list := [PStr "389-ds"; PStr "timezone"; PStr "openssl"];
    custom_end := THREE_EIGHT_NINE_DS_custom_end;
    config_sh_script := "";
    maintainer := "wbrown@suse.de";
    extra_files := [];
    additional_names := [];
    custom_labelprefix_end := "";
    custom_description := "";
    build_recipe_type := DOCKER
  |};
  version := Str "1.4";
  additional_versions := [];
  _registry_prefix := _registry_prefix_default
|}.

(** [dataclasses.replace(self, package_list=..., custom_end=...,
    config_sh_script=..., extra_files=..., build_recipe_type=...)] *)
Definition replace_base (self : BaseContainerImage)
  (package_list' : list pkg_entry) (custom_end' config_sh_script' : string)
  (extra_files' : list (string * file_contents))
  (build_recipe_type' : BuildType) : BaseContainerImage := {|
  name := name self;
  pretty_name := pretty_name self;
  ibs_package := ibs_package self;
  sp_version := sp_version self;
  release_stage := release_stage self;
  from_image := from_image self;
  is_latest := is_latest self;
  entrypoint := entrypoint self;
  env := env self;
  replacements_via_service := replacements_via_service self;
  tech_preview := tech_preview self;
  extra_labels := extra_labels self;
  package_list := package_list';
  custom_end := custom_end';
  config_sh_script := config_sh_script';
  maintainer := maintainer self;
  extra_files := extra_files';
  additional_names := additional_names self;
  custom_labelprefix_end := custom_labelprefix_end self;
  custom_description := custom_description self;
  build_recipe_type := build_recipe_type'
|}.

Definition set_base (b : BaseContainerImage) (self : LanguageStackContainer)
  : LanguageStackContainer :=
  {| base := b;
     version := version self;
     additional_versions := additional_versions self;
     _registry_prefix := _registry_prefix self |}.

(** The Node.js 14 arguments with the package list emptied and both tails set. *)
Definition NODE_14_SP4_invalid_args : LanguageStackContainer :=
  set_base
    (replace_base NODE_14_SP4_args [] "EXPOSE 8080" "npm install -g yarn"
       (extra_files NODE_14_SP4_args) (build_recipe_type NODE_14_SP4_args))
    NODE_14_SP4_args.




(** [self.name = name'] *)
Definition set_name (name' : string) (self : BaseContainerImage)
  : BaseContainerImage := {|
  name := name';
  pretty_name := pretty_name self;
  ibs_package := ibs_package self;
  sp_version := sp_version self;
  release_stage := release_stage self;
  from_image := from_image self;
  is_latest := is_latest self;
  entrypoint := entrypoint self;
  env := env self;
  replacements_via_service := replacements_via_service self;
  tech_preview := tech_preview self;
  extra_labels := extra_labels self;
  package_list := package_list self;
  custom_end := custom_end self;
  config_sh_script := config_sh_script self;
  maintainer := maintainer self;
  extra_files := extra_files self;
  additional_names := additional_names self;
  custom_labelprefix_end := custom_labelprefix_end self;
  custom_description := custom_description self;
  build_recipe_type := build_recipe_type self
|}.

(** The minimal image under a name that holds a colon. *)
Definition MINIMAL_SP3_colon_args : BaseContainerImage :=
  set_name "minimal:15" MINIMAL_SP3_args.

(** The minimal image given a script. *)
Definition MINIMAL_SP3_script_args : BaseContainerImage :=
  replace_base MINIMAL_SP3_args (package_list MINIMAL_SP3_args)
    "" "zypper clean" (extra_files MINIMAL_SP3_args) KIWI.


(** *** A file system with one directory

    The root, which is also the working directory, holds the directory
    [dir] and regular files; [dir] holds regular files only; everything is
    writable and there are no links. [single_directory dir] is what the
    paths name there, and a file is called by its absolute path. *)

(** Where the walk along the components of a path has got to. *)
Inductive place :=
| AtRoot
| InDirectory
| AtName (inside : bool) (n : string)
| Lost.

Definition walk (dir : string) (p : place) (component : string) : place :=
  if String.eqb component "" || String.eqb component "." then
    match p with
    | AtRoot => AtRoot
    | InDirectory => InDirectory
    | AtName _ _ | Lost => Lost
    end
  else if String.eqb component ".." then
    match p with
    | AtRoot | InDirectory => AtRoot
    | AtName _ _ | Lost => Lost
    end
  else
    match p with
    | AtRoot =>
        if String.eqb component dir then InDirectory
        else AtName false component
    | InDirectory => AtName true component
    | AtName _ _ | Lost => Lost
    end.

Definition single_directory (dir : string) (path : string) : location :=
  if String.eqb path "" then Unreachable
  else
    match fold_left (walk dir) (split "/" path) AtRoot with
    | AtRoot | InDirectory => Occupied
    | AtName false n => Slot ("/" +:+ n)
    | AtName true n => Slot ("/" +:+ dir +:+ "/" +:+ n)
    | Lost => Unreachable
    end.

(** A template whose render is the constant text [s]. *)
Definition constant_template (s : string) : Image -> result string :=
  fun _ => Ok s.

(** * Properties *)

(** ** Strings *)

Lemma string_app_cons (x : ascii) (a b : string) :
  String x a +:+ b = String x (a +:+ b).
Proof. reflexivity. Qed.

Lemma string_app_assoc (a b c : string) : (a +:+ b) +:+ c = a +:+ (b +:+ c).
Proof.
  induction a as [|x a IH]; [reflexivity|].
  rewrite !string_app_cons. now rewrite IH.
Qed.

Lemma string_app_nil_r (a : string) : a +:+ "" = a.
Proof.
  induction a as [|x a IH]; [reflexivity|].
  rewrite string_app_cons. now rewrite IH.
Qed.

Lemma prefix_app (p s : string) : String.prefix p (p +:+ s) = true.
Proof.
  induction p as [|c p IH].
  - now destruct s.
  - rewrite string_app_cons. simpl.
    destruct (ascii_dec c c); [exact IH | congruence].
Qed.

Lemma str_bool_true (s : string) : str_bool s = true <-> s <> "".
Proof. destruct s; simpl; split; congruence. Qed.


(** ** Package-list renderings *)

Lemma create_pkg_filter_func_phase (t : PackageType) (p : pkg_entry) :
  create_pkg_filter_func t p = bool_decide (phase_of p = t).
Proof.
  destruct p as [s|p]; simpl; [|reflexivity].
  apply bool_decide_ext. split; congruence.
Qed.

Lemma filter_create_pkg_filter_func (t : PackageType) (l : list pkg_entry) :
  List.filter (create_pkg_filter_func t) l = packages_of_phase t l.
Proof.
  unfold packages_of_phase. apply List.filter_ext.
  intros p. apply create_pkg_filter_func_phase.
Qed.

Lemma packages_check_raises (l : list pkg_entry) :
  raises (packages_check l) <-> Exists (fun e => phase_of e <> IMAGE) l.
Proof.
  induction l as [|e l IH]; simpl.
  - split; [tauto | intros H; inversion H].
  - destruct e as [s|p]; simpl.
    + rewrite IH. split; [now constructor 2|].
      intros H. inversion H as [? ? Hh|]; subst; [now elim Hh | assumption].
    + case_bool_decide as Hp; simpl.
      * rewrite IH. split; [now constructor 2|].
        intros H. inversion H as [? ? Hh|]; subst; [now elim Hh | assumption].
      * split; [intros _; now constructor 1 | tauto].
Qed.

Lemma packages_check_cases (l : list pkg_entry) :
  packages_check l = Ok tt \/ raises (packages_check l).
Proof.
  induction l as [|[s|p] l IH]; simpl; auto.
  case_bool_decide; simpl; auto.
Qed.

Lemma pkg_entry_str_entry_name (e : pkg_entry) : pkg_entry_str e = entry_name e.
Proof. now destruct e. Qed.

(** C3: the flat rendering [packages] raises exactly when the package list
    has an entry tagged with a phase other than the image phase; otherwise
    it returns the names of the entries joined by single spaces, in list
    order. *)
Theorem packages_raises_iff_phase_tagged (self : BaseContainerImage) :
  (raises (packages self)
   <-> Exists (fun e => phase_of e <> IMAGE) (package_list self))
  /\ (packages self
      = Ok (String.concat " " (map entry_name (package_list self)))
      \/ raises (packages self)).
Proof.
  rewrite <- (map_ext _ _ pkg_entry_str_entry_name).
  unfold packages.
  destruct (packages_check_cases (package_list self)) as [H|H].
  - split; [|left; now rewrite H].
    rewrite <- packages_check_raises. rewrite H. simpl. tauto.
  - split; [|right].
    + rewrite <- packages_check_raises.
      destruct (packages_check (package_list self)); simpl in *; tauto.
    + destruct (packages_check (package_list self)); simpl in *; tauto.
Qed.

Lemma string_app_nil_l (a : string) : "" +:+ a = a.
Proof. reflexivity. Qed.

Lemma PackageType_str_phase_attribute (t : PackageType) :
  PackageType_str t = phase_attribute t.
Proof. now destruct t. Qed.

(** The lines of a block as the code joins them, and as the specification
    lists them. *)
Lemma joined_package_lines (e : pkg_entry) (l : list pkg_entry) :
  "    "
  +:+ String.concat (nl +:+ "    ")
        (map (fun pkg => "<package name=" +:+ dq +:+ pkg_entry_str pkg
                         +:+ dq +:+ "/>")
             (e :: l))
  +:+ nl
  = String.concat "" (map package_element (map entry_name (e :: l))).
Proof.
  revert e. induction l as [|e' l IH]; intros e.
  - cbn [map String.concat]. unfold package_element.
    rewrite pkg_entry_str_entry_name, !string_app_assoc. reflexivity.
  - specialize (IH e'). cbn [map String.concat] in *.
    rewrite string_app_nil_l. rewrite <- IH. unfold package_element.
    rewrite pkg_entry_str_entry_name, !string_app_assoc. reflexivity.
Qed.

(** The block the code renders for a phase that has packages is the block
    of the specification. *)
Lemma kiwi_packages_block_element (t : PackageType) (l : list pkg_entry) :
  l <> [] ->
  kiwi_packages_block t l = packages_element t (map entry_name l).
Proof.
  destruct l as [|e l]; [congruence|]. intros _.
  unfold kiwi_packages_block, packages_element.
  rewrite <- joined_package_lines, PackageType_str_phase_attribute.
  now rewrite !string_app_assoc.
Qed.

Lemma kiwi_packages_eq_spec (self : BaseContainerImage) :
  kiwi_packages self = kiwi_packages_spec self.
Proof.
  unfold kiwi_packages, kiwi_packages_spec, PKG_TYPES.
  cbn [map combine fold_left List.filter].
  rewrite !filter_create_pkg_filter_func.
  destruct (packages_of_phase DELETE (package_list self)) eqn:Ed;
    destruct (packages_of_phase BOOTSTRAP (package_list self)) eqn:Eb;
    destruct (packages_of_phase IMAGE (package_list self)) eqn:Ei;
    destruct (packages_of_phase UNINSTALL (package_list self)) eqn:Eu;
    cbn [length Nat.ltb Nat.leb list_bool map String.concat];
    rewrite ?Ed, ?Eb, ?Ei, ?Eu;
    rewrite ?kiwi_packages_block_element by discriminate;
    rewrite ?string_app_nil_l, ?string_app_assoc;
    reflexivity.
Qed.

Lemma packages_of_phase_cons (t : PackageType) (e : pkg_entry) (l : list pkg_entry) :
  packages_of_phase t (e :: l)
  = if bool_decide (phase_of e = t)
    then e :: packages_of_phase t l
    else packages_of_phase t l.
Proof. reflexivity. Qed.

Lemma packages_of_phase_app (t : PackageType) (l1 l2 : list pkg_entry) :
  packages_of_phase t (l1 ++ l2) = packages_of_phase t l1 ++ packages_of_phase t l2.
Proof. apply List.filter_app. Qed.

Lemma packages_of_phase_partition (l : list pkg_entry) :
  Permutation (concat (map (fun t => packages_of_phase t l) PKG_TYPES)) l.
Proof.
  unfold PKG_TYPES. cbn [map concat]. rewrite app_nil_r.
  induction l as [|e l IH]; [constructor|].
  rewrite !packages_of_phase_cons.
  destruct (phase_of e); cbn [bool_decide decide_rel PackageType_eq_dec];
    repeat (case_bool_decide; try congruence).
  - now constructor.
  - rewrite !app_assoc. symmetry. apply Permutation_cons_app.
    rewrite <- !app_assoc. now symmetry.
  - symmetry. apply Permutation_cons_app. now symmetry.
  - rewrite app_assoc. symmetry. apply Permutation_cons_app.
    rewrite <- app_assoc. now symmetry.
Qed.

Lemma packages_of_phase_sublist (t : PackageType) (l : list pkg_entry) :
  sublist (packages_of_phase t l) l.
Proof.
  induction l as [|e l IH]; [constructor|].
  rewrite packages_of_phase_cons. case_bool_decide; now constructor.
Qed.

Lemma packages_of_phase_In (t : PackageType) (e : pkg_entry) (l : list pkg_entry) :
  In e (packages_of_phase t l) <-> In e l /\ phase_of e = t.
Proof.
  unfold packages_of_phase. rewrite List.filter_In, bool_decide_eq_true. tauto.
Qed.

(** C5: [kiwi_packages] partitions the package list into the four phases
    delete, bootstrap, image and uninstall, emits for each phase that has
    packages one block listing exactly the packages of that phase in their
    original relative order, and emits nothing for a phase without packages. *)
Theorem kiwi_packages_partitions_by_phase (self : BaseContainerImage) :
  kiwi_packages self = kiwi_packages_spec self
  /\ Permutation
       (concat (map (fun t => packages_of_phase t (package_list self))
                    [DELETE; BOOTSTRAP; IMAGE; UNINSTALL]))
       (package_list self)
  /\ (forall t, sublist (packages_of_phase t (package_list self)) (package_list self))
  /\ (forall t e, In e (packages_of_phase t (package_list self))
                  <-> In e (package_list self) /\ phase_of e = t).
Proof.
  split; [apply kiwi_packages_eq_spec|].
  split; [apply packages_of_phase_partition|].
  split; [intros t; apply packages_of_phase_sublist|].
  intros t e; apply packages_of_phase_In.
Qed.

(** ** Build tags *)

(** The accumulating loop [for x in xs: tags += f(x)]. *)
Lemma fold_left_app_concat {A B} (f : B -> list A) (xs : list B) (acc : list A) :
  fold_left (fun tags x => tags ++ f x) xs acc = acc ++ concat (map f xs).
Proof.
  revert acc. induction xs as [|x xs IH]; intros acc; simpl.
  - now rewrite app_nil_r.
  - rewrite IH. now rewrite <- app_assoc.
Qed.

Lemma LanguageStackContainer_build_tags_concat (self : LanguageStackContainer) :
  LanguageStackContainer_build_tags self
  = concat (map (LanguageStackContainer_tags_of_name self) (names self)).
Proof.
  unfold LanguageStackContainer_build_tags. now rewrite fold_left_app_concat.
Qed.

Lemma OsContainer_build_tags_concat (self : BaseContainerImage) :
  OsContainer_build_tags self
  = concat (map (OsContainer_tags_of_name self) (names self)).
Proof.
  unfold OsContainer_build_tags. now rewrite fold_left_app_concat.
Qed.

Lemma length_concat_const {A B} (f : B -> list A) (n : nat) (xs : list B) :
  (forall x, length (f x) = n) -> length (concat (map f xs)) = n * length xs.
Proof.
  intros Hf. induction xs as [|x xs IH]; simpl.
  - lia.
  - rewrite length_app, Hf, IH. lia.
Qed.

Lemma LanguageStackContainer_tags_of_name_length (self : LanguageStackContainer)
  (n : string) :
  length (LanguageStackContainer_tags_of_name self n)
  = 1 + (if is_latest self then 1 else 0) + 1 + length (additional_versions self).
Proof.
  unfold LanguageStackContainer_tags_of_name.
  rewrite !length_app, length_map. destruct (is_latest self); simpl; lia.
Qed.

Lemma OsContainer_tags_of_name_length (self : BaseContainerImage) (n : string) :
  length (OsContainer_tags_of_name self n)
  = 1 + (if is_latest self then 1 else 0) + 1 + 0.
Proof.
  unfold OsContainer_tags_of_name.
  rewrite length_app. destruct (is_latest self); simpl; lia.
Qed.

(** C4: the number of build tags is
    (1 + [1 if is_latest] + 1 + number of version aliases) times the number
    of names (the primary name and each additional name). *)
Theorem build_tags_length (i : Image) :
  length (build_tags i)
  = (1 + (if is_latest i then 1 else 0) + 1 + length (version_aliases i))
    * length (names i).
Proof.
  destruct i as [c|c|c]; simpl build_tags; simpl version_aliases.
  - rewrite LanguageStackContainer_build_tags_concat.
    apply length_concat_const. intros n.
    apply LanguageStackContainer_tags_of_name_length.
  - rewrite LanguageStackContainer_build_tags_concat.
    apply length_concat_const. intros n.
    apply LanguageStackContainer_tags_of_name_length.
  - rewrite OsContainer_build_tags_concat.
    apply (length_concat_const _ _ _ (OsContainer_tags_of_name_length c)).
Qed.

Lemma LanguageStackContainer_tags_prefix (self : LanguageStackContainer) :
  Forall (fun tag => String.prefix (_registry_prefix self +:+ "/") tag = true)
         (LanguageStackContainer_build_tags self).
Proof.
  rewrite LanguageStackContainer_build_tags_concat.
  apply Forall_concat, Forall_map, Forall_forall. intros n _.
  unfold LanguageStackContainer_tags_of_name.
  repeat apply Forall_app_2.
  - constructor; [|constructor]. rewrite <- string_app_assoc. apply prefix_app.
  - destruct (is_latest self); constructor; [|constructor].
    rewrite <- string_app_assoc. apply prefix_app.
  - constructor; [|constructor]. rewrite <- string_app_assoc. apply prefix_app.
  - apply Forall_map, Forall_forall. intros ver _.
    rewrite <- string_app_assoc. apply prefix_app.
Qed.

(** C7, as the code has it: every build tag of a language-stack descriptor
    starts with the value of its field [_registry_prefix] followed by a
    slash, which is [bci/] when the field was left at its default; every
    build tag of an application-stack descriptor starts with [suse/],
    whatever prefix its constructor was given; the two differ. *)
Theorem build_tags_registry_prefix (args : LanguageStackContainer) (i : Image) :
  (new_LanguageStackContainer args = Ok i ->
   Forall (fun tag => String.prefix (_registry_prefix args +:+ "/") tag = true)
          (build_tags i))
  /\ (new_LanguageStackContainer args = Ok i ->
      _registry_prefix args = _registry_prefix_default ->
      Forall (fun tag => String.prefix "bci/" tag = true) (build_tags i))
  /\ (new_ApplicationStackContainer args = Ok i ->
      Forall (fun tag => String.prefix "suse/" tag = true) (build_tags i))
  /\ "bci/" <> "suse/".
Proof.
  assert (Hl : new_LanguageStackContainer args = Ok i ->
               Forall (fun tag => String.prefix (_registry_prefix args +:+ "/")
                                    tag = true)
                      (build_tags i)).
  { unfold new_LanguageStackContainer, LanguageStackContainer__post_init__.
    destruct (negb (str_or_int_bool (version args))); [discriminate|].
    intros [= <-]. apply LanguageStackContainer_tags_prefix. }
  split; [exact Hl|]. split; [|split; [|discriminate]].
  - intros Hn Hp. specialize (Hl Hn). now rewrite Hp in Hl.
  - unfold new_ApplicationStackContainer, ApplicationStackContainer__post_init__,
      LanguageStackContainer__post_init__.
    cbn [version set_registry_prefix].
    destruct (negb (str_or_int_bool (version args))); [discriminate|].
    intros [= <-]. simpl build_tags.
    apply (LanguageStackContainer_tags_prefix (set_registry_prefix "suse" args)).
Qed.

(** Witness of [build_tags_registry_prefix]: the Node.js 14 entry, the same
    entry given the prefix [registry], and the 389-ds entry. *)
Lemma build_tags_registry_prefix_witness :
  Forall (fun tag => String.prefix "registry/" tag = true)
         (build_tags
            (LanguageStack (set_registry_prefix "registry" NODE_14_SP4_args)))
  /\ Forall (fun tag => String.prefix "bci/" tag = true)
            (build_tags (LanguageStack NODE_14_SP4_args))
  /\ Forall (fun tag => String.prefix "suse/" tag = true)
            (build_tags
               (ApplicationStack (set_registry_prefix "suse" THREE_EIGHT_NINE_DS_args))).
Proof.
  split; [|split].
  - apply (proj1 (build_tags_registry_prefix
                    (set_registry_prefix "registry" NODE_14_SP4_args) _)).
    reflexivity.
  - apply (proj1 (proj2 (build_tags_registry_prefix NODE_14_SP4_args _)));
      reflexivity.
  - apply (proj1 (proj2 (proj2
             (build_tags_registry_prefix THREE_EIGHT_NINE_DS_args _)))).
    reflexivity.
Defined.

(** C7 as stated fails: [_registry_prefix] is a field of the dataclass, and a
    language-stack descriptor constructed with another value has no tag
    under [bci/]. *)
Lemma language_stack_registry_prefix_counterexample :
  let args := set_registry_prefix "suse" NODE_14_SP4_args in
  new_LanguageStackContainer args = Ok (LanguageStack args)
  /\ build_tags (LanguageStack args)
     = ["suse/nodejs:14"; "suse/nodejs:14-%RELEASE%";
        "suse/node:14"; "suse/node:14-%RELEASE%"]
  /\ ~ Forall (fun tag => String.prefix "bci/" tag = true)
         (build_tags (LanguageStack args)).
Proof.
  split; [reflexivity|]. split; [reflexivity|].
  intros H. apply Forall_inv in H. vm_compute in H. discriminate.
Qed.

(** C10: the build-tag list of every descriptor starts with two tags for the
    primary name, so it is never empty and [reference] returns
    [registry.suse.com/] followed by the first build tag. *)
Theorem build_tags_nonempty_reference (i : Image) :
  exists t1 t2 rest,
    build_tags i = t1 :: t2 :: rest
    /\ tag_of_name i (name i) t1
    /\ tag_of_name i (name i) t2
    /\ reference i = Ok ("registry.suse.com/" +:+ t1).
Proof.
  unfold reference, tag_of_name.
  destruct i as [c|c|c]; simpl build_tags; simpl registry_path;
    rewrite ?LanguageStackContainer_build_tags_concat,
      ?OsContainer_build_tags_concat;
    unfold names; cbn [map concat];
    unfold LanguageStackContainer_tags_of_name, OsContainer_tags_of_name;
    cbn [base_of]; destruct (is_latest c); cbn [app];
    do 3 eexists; (split; [reflexivity|]);
    (split; [|split]);
    try (eexists; rewrite !string_app_assoc; reflexivity);
    reflexivity.
Qed.

(** ** Title and description *)

(** C8, as the code has it: the description is the custom description when
    one is set and the text templated from the pretty name otherwise; the
    title is always the text templated from the pretty name. *)
Theorem description_and_title (self : BaseContainerImage) :
  description self
  = (if str_bool (custom_description self)
     then custom_description self
     else "Image containing " +:+ pretty_name self
          +:+ " based on the SLE Base Container Image.")
  /\ title self = "SLE BCI " +:+ pretty_name self +:+ " Container Image".
Proof. split; reflexivity. Qed.

(** C8 as stated fails: the Golang entry overrides its description, and no
    descriptor with its pretty name has another title than the templated one. *)
Lemma title_override_counterexample :
  let self := base GOLANG_1_17_SP3_args in
  description self
  = "Image containing the Golang 1.17 development environment based on the SLE Base Container Image."
  /\ title self = "SLE BCI Golang 1.17 Container Image"
  /\ ~ exists other : BaseContainerImage,
         pretty_name other = pretty_name self /\ title other <> title self.
Proof.
  split; [reflexivity|]. split; [reflexivity|].
  intros [other [Hp Ht]]. apply Ht. unfold title. now rewrite Hp.
Qed.

(** ** Construction *)

Lemma new_OsContainer_cases (args : BaseContainerImage) :
  new_OsContainer args
  = if negb (list_bool (package_list args)) then
      Raise (ValueError ("No packages were added to " +:+ pretty_name args +:+ "."))
    else if str_bool (config_sh_script args) && str_bool (custom_end args) then
      Raise (ValueError
        "Cannot specify both a custom_end and a config.sh script! Use just config_sh_script.")
    else Ok (Os args).
Proof.
  unfold new_OsContainer, BaseContainerImage__post_init__.
  destruct (negb (list_bool (package_list args))); [reflexivity|].
  now destruct (str_bool (config_sh_script args) && str_bool (custom_end args)).
Qed.

(** [LanguageStackContainer.__post_init__] replaces the inherited one and
    does not call it: only the version is validated. *)
Lemma new_LanguageStackContainer_cases (args : LanguageStackContainer) :
  new_LanguageStackContainer args
  = if str_or_int_bool (version args) then Ok (LanguageStack args)
    else Raise (ValueError "A language stack container requires a version").
Proof.
  unfold new_LanguageStackContainer, LanguageStackContainer__post_init__.
  now destruct (str_or_int_bool (version args)).
Qed.

Lemma new_ApplicationStackContainer_cases (args : LanguageStackContainer) :
  new_ApplicationStackContainer args
  = if str_or_int_bool (version args)
    then Ok (ApplicationStack (set_registry_prefix "suse" args))
    else Raise (ValueError "A language stack container requires a version").
Proof.
  unfold new_ApplicationStackContainer, ApplicationStackContainer__post_init__,
    LanguageStackContainer__post_init__.
  cbn [version set_registry_prefix].
  now destruct (str_or_int_bool (version args)).
Qed.

(** C1 at a failing input: a language-stack and an application-stack
    descriptor are constructed although the package list is empty and both
    [custom_end] and [config_sh_script] are set; [OsContainer] rejects the
    same inherited fields. *)
Theorem language_stack_skips_base_validation :
  package_list NODE_14_SP4_invalid_args = []
  /\ str_bool (custom_end NODE_14_SP4_invalid_args)
     && str_bool (config_sh_script NODE_14_SP4_invalid_args) = true
  /\ new_LanguageStackContainer NODE_14_SP4_invalid_args
     = Ok (LanguageStack NODE_14_SP4_invalid_args)
  /\ new_ApplicationStackContainer NODE_14_SP4_invalid_args
     = Ok (ApplicationStack (set_registry_prefix "suse" NODE_14_SP4_invalid_args))
  /\ new_OsContainer (base NODE_14_SP4_invalid_args)
     = Raise (ValueError "No packages were added to Node.js 14.").
Proof. repeat split; reflexivity. Qed.

(** ** Plain-string entries of the package list *)

Lemma kiwi_packages_phase_blocks (self : BaseContainerImage) :
  kiwi_packages self
  = phase_block DELETE (package_list self)
    +:+ phase_block BOOTSTRAP (package_list self)
    +:+ phase_block IMAGE (package_list self)
    +:+ phase_block UNINSTALL (package_list self).
Proof.
  unfold kiwi_packages, phase_block, PKG_TYPES.
  cbn [map combine fold_left].
  rewrite !filter_create_pkg_filter_func.
  destruct (packages_of_phase DELETE (package_list self));
    destruct (packages_of_phase BOOTSTRAP (package_list self));
    destruct (packages_of_phase IMAGE (package_list self));
    destruct (packages_of_phase UNINSTALL (package_list self));
    cbn [length Nat.ltb Nat.leb list_bool];
    rewrite ?string_app_nil_l, ?string_app_nil_r, ?string_app_assoc;
    reflexivity.
Qed.

Lemma packages_of_phase_plain_other (t : PackageType) (s : string)
  (l1 l2 : list pkg_entry) :
  t <> IMAGE ->
  packages_of_phase t (l1 ++ PStr s :: l2) = packages_of_phase t (l1 ++ l2).
Proof.
  intros Ht. rewrite !packages_of_phase_app, packages_of_phase_cons.
  cbn [phase_of]. case_bool_decide; [congruence | reflexivity].
Qed.

Lemma packages_of_phase_plain_image (s : string) (l1 l2 : list pkg_entry) :
  packages_of_phase IMAGE (l1 ++ PStr s :: l2)
  = packages_of_phase IMAGE l1 ++ PStr s :: packages_of_phase IMAGE l2.
Proof. now rewrite packages_of_phase_app, packages_of_phase_cons. Qed.

Lemma packages_raises_check (self : BaseContainerImage) :
  raises (packages self) <-> raises (packages_check (package_list self)).
Proof.
  unfold packages. now destruct (packages_check (package_list self)).
Qed.

Lemma phase_block_element (t : PackageType) (l : list pkg_entry) :
  phase_block t l = phase_element t l.
Proof.
  unfold phase_block, phase_element.
  destruct (packages_of_phase t l) eqn:E; [reflexivity|].
  now rewrite kiwi_packages_block_element.
Qed.

(** C9: an entry given as a plain string belongs to the image phase. Only
    the image-phase filter accepts it; the kiwi rendering lists its
    [<package>] line in the block of the image phase, at its place among
    the image-phase packages, and the other blocks are those of the list
    without it; the flat rendering raises only when some other entry is
    tagged with another phase, and otherwise returns the string at its
    place among the names. *)
Theorem plain_string_entry_is_image_phase (self : BaseContainerImage)
  (s : string) (l1 l2 : list pkg_entry) :
  package_list self = l1 ++ PStr s :: l2 ->
  (forall t, create_pkg_filter_func t (PStr s) = true <-> t = IMAGE)
  /\ kiwi_packages self
     = phase_element DELETE (l1 ++ l2)
       +:+ phase_element BOOTSTRAP (l1 ++ l2)
       +:+ packages_element IMAGE
             (map entry_name (packages_of_phase IMAGE l1)
              ++ s :: map entry_name (packages_of_phase IMAGE l2))
       +:+ phase_element UNINSTALL (l1 ++ l2)
  /\ (raises (packages self)
      <-> Exists (fun e => phase_of e <> IMAGE) (l1 ++ l2))
  /\ (packages self
      = Ok (String.concat " " (map entry_name l1 ++ s :: map entry_name l2))
      \/ raises (packages self)).
Proof.
  intros Hl. split; [|split; [|split]].
  - intros t. cbn [create_pkg_filter_func]. apply bool_decide_eq_true.
  - rewrite kiwi_packages_phase_blocks, Hl, !phase_block_element.
    unfold phase_element.
    rewrite (packages_of_phase_plain_other DELETE) by discriminate.
    rewrite (packages_of_phase_plain_other BOOTSTRAP) by discriminate.
    rewrite (packages_of_phase_plain_other UNINSTALL) by discriminate.
    rewrite packages_of_phase_plain_image, map_app. cbn [map entry_name].
    now destruct (packages_of_phase IMAGE l1).
  - rewrite packages_raises_check, packages_check_raises, Hl.
    rewrite !Exists_app, Exists_cons. cbn [phase_of]. tauto.
  - unfold packages. rewrite Hl.
    destruct (packages_check_cases (l1 ++ PStr s :: l2)) as [H|H].
    + left. rewrite H. cbn [mbind result_bind].
      rewrite (map_ext _ _ pkg_entry_str_entry_name), map_app. reflexivity.
    + right. now destruct (packages_check (l1 ++ PStr s :: l2)).
Qed.

(** Witness of [plain_string_entry_is_image_phase]: [git-core] in the
    package list of the Node.js 14 entry. *)
Lemma plain_string_entry_is_image_phase_witness :
  package_list NODE_14_SP4_args
  = [PStr "nodejs14"; PStr "npm14"]
    ++ PStr "git-core" :: [PStr "update-alternatives"; PStr "distribution-release"]
  /\ kiwi_packages NODE_14_SP4_args
     = packages_element IMAGE
         ["nodejs14"; "npm14"; "git-core"; "update-alternatives";
          "distribution-release"]
  /\ packages NODE_14_SP4_args
     = Ok "nodejs14 npm14 git-core update-alternatives distribution-release".
Proof.
  pose proof (plain_string_entry_is_image_phase NODE_14_SP4_args "git-core"
                [PStr "nodejs14"; PStr "npm14"]
                [PStr "update-alternatives"; PStr "distribution-release"]
                eq_refl) as [_ [Hk [_ Hp]]].
  split; [reflexivity|]. split; [exact Hk|].
  destruct Hp as [Hp|Hp]; [exact Hp|].
  exfalso. exact Hp.
Defined.

(** ** The scheduled writes and the file system *)

Lemma string_app_eq_nil (s t : string) : s +:+ t = "" -> t = "".
Proof. destruct s; [tauto | discriminate]. Qed.

Lemma last_char_app (s t : string) :
  t <> "" -> last_char (s +:+ t) = last_char t.
Proof.
  intros Ht. induction s as [|c s IH]; [reflexivity|].
  rewrite string_app_cons. simpl.
  destruct (s +:+ t) eqn:E; [|exact IH].
  now apply string_app_eq_nil in E.
Qed.



Lemma config_sh_raises (year : string) (self : BaseContainerImage) :
  config_sh_script self = "" -> custom_end self <> "" ->
  config_sh year self
  = Raise (ValueError
      "This image cannot be build as a kiwi image, it has a `custom_end` set.").
Proof.
  intros Hs Hc. unfold config_sh. rewrite Hs. simpl.
  apply str_bool_true in Hc. now rewrite Hc.
Qed.


Section WriteFilesProperties.

Variable lookup_path : string -> location.
Variables DOCKERFILE_TEMPLATE KIWI_TEMPLATE SERVICE_TEMPLATE : Image -> result string.
Variable year : string.







(** *** The writers of a file *)











End WriteFilesProperties.

(** A kiwi descriptor with a [custom_end] and no script cannot be written:
    whatever the templates and the file system, the operation raises. *)
Lemma write_files_to_folder_kiwi_custom_end_raises
  (lookup_path : string -> location)
  (DOCKERFILE_TEMPLATE KIWI_TEMPLATE SERVICE_TEMPLATE : Image -> result string)
  (year : string) (self : Image) (dest : string) (fs : filesystem) :
  build_recipe_type self = KIWI ->
  config_sh_script self = "" ->
  custom_end self <> "" ->
  raises (write_files_to_folder lookup_path DOCKERFILE_TEMPLATE KIWI_TEMPLATE
            SERVICE_TEMPLATE year self dest fs).
Proof.
  intros Hk Hs Hc.
  unfold write_files_to_folder, schedule_writes, write_recipe.
  rewrite Hk. destruct (KIWI_TEMPLATE self); [|exact I].
  now rewrite config_sh_raises.
Qed.





(** * Further properties of the code *)

(** ** [config_sh] *)

Lemma string_app_eq_nil_l (s t : string) : s +:+ t = "" -> s = "".
Proof. destruct s; [tauto | discriminate]. Qed.


(** ** The two package-list renderings *)

(** X2: the flat rendering reports the first entry of the package list that
    is tagged with another phase than the image phase: the [ValueError]
    names the phase of that entry. *)
Theorem packages_reports_first_phase_tagged (self : BaseContainerImage)
  (l1 l2 : list pkg_entry) (p : Package.t) :
  package_list self = l1 ++ PPkg p :: l2 ->
  Forall (fun e => phase_of e = IMAGE) l1 ->
  Package.pkg_type p <> IMAGE ->
  packages self
  = Raise (ValueError ("Cannot add a package of type "
                       +:+ PackageType_str (Package.pkg_type p)
                       +:+ " into a Dockerfile based build.")).
Proof.
  intros Hl Hall Hp. unfold packages. rewrite Hl. clear Hl.
  assert (Hc : packages_check (l1 ++ PPkg p :: l2)
               = Raise (ValueError ("Cannot add a package of type "
                       +:+ PackageType_str (Package.pkg_type p)
                       +:+ " into a Dockerfile based build."))).
  { induction Hall as [|e l1 He Hall IH]; simpl.
    - case_bool_decide; [contradiction | reflexivity].
    - destruct e as [s|q]; [exact IH|].
      simpl in He. case_bool_decide; [exact IH | contradiction]. }
  now rewrite Hc.
Qed.

Lemma packages_reports_first_phase_tagged_witness :
  packages MINIMAL_SP3_args
  = Raise (ValueError
      "Cannot add a package of type bootstrap into a Dockerfile based build.").
Proof.
  apply (packages_reports_first_phase_tagged MINIMAL_SP3_args []
           (tail (package_list MINIMAL_SP3_args))
           (Package.mk "rpm-ndb" BOOTSTRAP)).
  - reflexivity.
  - constructor.
  - discriminate.
Defined.

Lemma packages_of_phase_all (t : PackageType) (l : list pkg_entry) :
  Forall (fun e => phase_of e = t) l -> packages_of_phase t l = l.
Proof.
  intros H. induction H as [|e l He H IH]; [reflexivity|].
  rewrite packages_of_phase_cons, IH. now case_bool_decide.
Qed.

Lemma packages_of_phase_none (t : PackageType) (l : list pkg_entry) :
  Forall (fun e => phase_of e <> t) l -> packages_of_phase t l = [].
Proof.
  intros H. induction H as [|e l He H IH]; [reflexivity|].
  rewrite packages_of_phase_cons, IH. now case_bool_decide.
Qed.

Lemma packages_Ok_all_image (self : BaseContainerImage) (s : string) :
  packages self = Ok s ->
  Forall (fun e => phase_of e = IMAGE) (package_list self).
Proof.
  intros H. apply Forall_forall. intros e He.
  destruct (decide (phase_of e = IMAGE)) as [|Hne]; [assumption|].
  assert (Hr : raises (packages self)).
  { apply packages_raises_check, packages_check_raises.
    apply Exists_exists. eauto. }
  rewrite H in Hr. destruct Hr.
Qed.

(** X3: whenever the flat rendering returns, the kiwi rendering of the same
    descriptor is a single block, of the image phase, that lists the whole
    package list in order (and is empty for an empty list). *)
Theorem packages_Ok_kiwi_packages_single_block (self : BaseContainerImage)
  (s : string) :
  packages self = Ok s ->
  kiwi_packages self
  = (if list_bool (package_list self)
     then kiwi_packages_block IMAGE (package_list self)
     else "")
  /\ kiwi_packages self
     = (if list_bool (package_list self)
        then packages_element IMAGE (map entry_name (package_list self))
        else "").
Proof.
  intros H. apply packages_Ok_all_image in H.
  assert (Hk : kiwi_packages self
               = if list_bool (package_list self)
                 then kiwi_packages_block IMAGE (package_list self)
                 else "").
  { rewrite kiwi_packages_phase_blocks. unfold phase_block.
    rewrite (packages_of_phase_all IMAGE) by assumption.
    rewrite !packages_of_phase_none
      by (eapply Forall_impl; [exact H | intros e ->; discriminate]).
    simpl. now rewrite string_app_nil_r. }
  split; [exact Hk|]. rewrite Hk.
  destruct (package_list self) eqn:E; [reflexivity|].
  now rewrite kiwi_packages_block_element.
Qed.

Lemma packages_Ok_kiwi_packages_single_block_witness :
  kiwi_packages NODE_14_SP4_args
  = kiwi_packages_block IMAGE (package_list NODE_14_SP4_args)
  /\ kiwi_packages NODE_14_SP4_args
     = packages_element IMAGE
         ["nodejs14"; "npm14"; "git-core"; "update-alternatives";
          "distribution-release"].
Proof.
  apply (packages_Ok_kiwi_packages_single_block NODE_14_SP4_args
           "nodejs14 npm14 git-core update-alternatives distribution-release").
  reflexivity.
Defined.

Lemma kiwi_packages_block_nonempty (t : PackageType) (l : list pkg_entry) :
  kiwi_packages_block t l <> "".
Proof. unfold kiwi_packages_block. intros H. discriminate H. Qed.

(** X4: the kiwi rendering is the empty text exactly when the package list
    is empty. *)
Theorem kiwi_packages_empty_iff (self : BaseContainerImage) :
  kiwi_packages self = "" <-> package_list self = [].
Proof.
  rewrite kiwi_packages_phase_blocks. split.
  - intros H. destruct (package_list self) as [|e l] eqn:El; [reflexivity|].
    exfalso.
    assert (Hb : forall t, phase_of e = t -> phase_block t (e :: l) <> "").
    { intros t Ht. unfold phase_block. rewrite packages_of_phase_cons.
      rewrite bool_decide_true by assumption. simpl.
      apply kiwi_packages_block_nonempty. }
    pose proof (string_app_eq_nil_l _ _ H) as Hd.
    apply string_app_eq_nil in H.
    pose proof (string_app_eq_nil_l _ _ H) as Hbo.
    apply string_app_eq_nil in H.
    pose proof (string_app_eq_nil_l _ _ H) as Hi.
    apply string_app_eq_nil in H.
    destruct (phase_of e) eqn:Ep; eapply Hb; eauto.
  - intros ->. reflexivity.
Qed.

(** ** Environment and label renderings *)

Lemma concat_eq_nil (sep : string) (l : list string) :
  Forall (fun x => x <> "") l -> (String.concat sep l = "" <-> l = []).
Proof.
  intros H. split; [|now intros ->].
  destruct H as [|x l Hx H]; [reflexivity|]. simpl.
  destruct l; intros E; [now elim Hx|].
  apply string_app_eq_nil_l in E. now elim Hx.
Qed.

Lemma concat_map_eq_nil {A} (sep : string) (f : A -> string) (l : list A) :
  (forall a, f a <> "") -> (String.concat sep (map f l) = "" <-> l = []).
Proof.
  intros Hf. rewrite concat_eq_nil.
  - split; [apply map_eq_nil | now intros ->].
  - apply Forall_map, Forall_forall. intros a _. apply Hf.
Qed.

(** X5: each of the four renderings of the environment and of the extra
    labels is the empty text exactly when its mapping is empty. *)
Theorem env_and_label_renderings_empty_iff (self : BaseContainerImage) :
  (env_lines self = "" <-> env self = [])
  /\ (kiwi_env_entry self = "" <-> env self = [])
  /\ (extra_label_lines self = "" <-> extra_labels self = [])
  /\ (extra_label_xml_lines self = "" <-> extra_labels self = []).
Proof.
  split; [|split; [|split]].
  - apply concat_map_eq_nil. intros [k v] H. discriminate H.
  - unfold kiwi_env_entry. destruct (env self); simpl; [tauto|].
    split; intros H; discriminate H.
  - apply concat_map_eq_nil. intros [k v] H. discriminate H.
  - apply concat_map_eq_nil. intros [k v] H. discriminate H.
Qed.

(** ** More on the build tags *)

Lemma OsContainer_tags_last_char (self : BaseContainerImage) (n tag : string) :
  is_latest self = false ->
  In tag (OsContainer_tags_of_name self n) ->
  last_char tag = Some "%"%char.
Proof.
  intros Hl. unfold OsContainer_tags_of_name. rewrite Hl. simpl.
  intros [<-|[<-|[]]]; rewrite <- string_app_assoc;
    now rewrite last_char_app.
Qed.

(** X6: an [OsContainer] publishes the [latest] tag of each of its names
    exactly when [is_latest] is set. *)
Theorem OsContainer_latest_tag_iff (self : BaseContainerImage) (n : string) :
  In n (names self) ->
  (In ("bci/bci-" +:+ n +:+ ":latest") (build_tags (Os self))
   <-> is_latest self = true).
Proof.
  intros Hn. simpl build_tags. rewrite OsContainer_build_tags_concat.
  rewrite in_concat. split.
  - intros [tags [Htags Hin]]. apply in_map_iff in Htags.
    destruct Htags as [n' [<- _]].
    destruct (is_latest self) eqn:Hl; [reflexivity|].
    apply (OsContainer_tags_last_char self n' _ Hl) in Hin.
    rewrite <- string_app_assoc, last_char_app in Hin; discriminate.
  - intros Hl. exists (OsContainer_tags_of_name self n). split.
    + now apply in_map.
    + unfold OsContainer_tags_of_name. rewrite Hl. simpl. auto.
Qed.

Lemma OsContainer_latest_tag_iff_witness :
  In "bci/bci-minimal:latest" (build_tags (Os MINIMAL_SP3_args))
  <-> is_latest MINIMAL_SP3_args = true.
Proof.
  apply (OsContainer_latest_tag_iff MINIMAL_SP3_args "minimal").
  now left.
Defined.

(** X7: a language-stack or application-stack descriptor publishes each of
    its names under the version label, under the release-suffixed version
    label, under every additional version, and under [latest] when
    [is_latest] is set. *)
Theorem LanguageStackContainer_tags_of_every_name (self : LanguageStackContainer)
  (n : string) :
  In n (names self) ->
  let tags := LanguageStackContainer_build_tags self in
  let tag t := _registry_prefix self +:+ "/" +:+ n +:+ ":" +:+ t in
  In (tag (LanguageStackContainer_version_label self)) tags
  /\ In (tag (LanguageStackContainer_version_label self +:+ "-%RELEASE%")) tags
  /\ Forall (fun ver => In (tag ver) tags) (additional_versions self)
  /\ (if is_latest self then In (tag "latest") tags else True).
Proof.
  intros Hn tags tag. subst tags.
  rewrite LanguageStackContainer_build_tags_concat.
  assert (H : forall t, In t (LanguageStackContainer_tags_of_name self n) ->
            In t (concat (map (LanguageStackContainer_tags_of_name self)
                              (names self)))).
  { intros t Ht. apply in_concat. eexists. split; [|exact Ht].
    now apply in_map. }
  split; [|split; [|split]].
  - apply H. unfold LanguageStackContainer_tags_of_name. now left.
  - apply H. unfold LanguageStackContainer_tags_of_name.
    apply in_or_app. right. apply in_or_app. right. now left.
  - apply Forall_forall. intros ver Hv. apply list_elem_of_In in Hv.
    apply H. unfold LanguageStackContainer_tags_of_name.
    apply in_or_app. right. apply in_or_app. right. right.
    apply in_map_iff. eauto.
  - destruct (is_latest self) eqn:Hl; [|exact I].
    apply H. unfold LanguageStackContainer_tags_of_name. rewrite Hl.
    right. now left.
Qed.

Lemma LanguageStackContainer_tags_of_every_name_witness :
  In "bci/node:14-%RELEASE%" (LanguageStackContainer_build_tags NODE_14_SP4_args).
Proof.
  apply (LanguageStackContainer_tags_of_every_name NODE_14_SP4_args "node").
  right. now left.
Defined.

(** ** [kiwi_additional_tags] *)

Lemma split_cons (c : ascii) (s : string) :
  split ":" (String c s)
  = if Ascii.eqb c ":" then "" :: split ":" s
    else match split ":" s with
         | [] => [String c ""]
         | h :: t => String c h :: t
         end.
Proof. reflexivity. Qed.

Lemma split_no_colon (s : string) : no_colon s = true -> split ":" s = [s].
Proof.
  induction s as [|c s IH]; [reflexivity|].
  simpl no_colon. intros H. apply andb_true_iff in H. destruct H as [Hc Hs].
  rewrite split_cons. apply negb_true_iff in Hc. rewrite Hc.
  now rewrite IH.
Qed.

Lemma split_app_colon (a b : string) :
  no_colon a = true -> split ":" (a +:+ ":" +:+ b) = a :: split ":" b.
Proof.
  induction a as [|c a IH]; [reflexivity|].
  simpl no_colon. intros H. apply andb_true_iff in H. destruct H as [Hc Ha].
  rewrite string_app_cons, split_cons. apply negb_true_iff in Hc. rewrite Hc.
  now rewrite IH.
Qed.

Lemma no_colon_app (a b : string) :
  no_colon (a +:+ b) = no_colon a && no_colon b.
Proof.
  induction a as [|c a IH]; [reflexivity|].
  rewrite string_app_cons. simpl. rewrite IH. now rewrite andb_assoc.
Qed.

Lemma split_length_pos (s : string) : (1 <= length (split ":" s))%nat.
Proof.
  induction s as [|c s IH]; [simpl; lia|].
  rewrite split_cons. destruct (Ascii.eqb c ":"); [simpl; lia|].
  destruct (split ":" s); simpl in *; lia.
Qed.

(** A text that holds a colon, followed by a colon, splits in three parts
    at least. *)
Lemma split_length_colon (a b : string) :
  no_colon a = false -> (3 <= length (split ":" (a +:+ ":" +:+ b)))%nat.
Proof.
  induction a as [|c a IH]; [discriminate|].
  simpl no_colon. rewrite string_app_cons, split_cons.
  destruct (Ascii.eqb c ":") eqn:Hc; simpl negb; simpl andb.
  - intros _. simpl length.
    destruct (no_colon a) eqn:Ha.
    + rewrite split_app_colon by assumption. simpl.
      pose proof (split_length_pos b). lia.
    + specialize (IH eq_refl). lia.
  - intros Ha. specialize (IH Ha).
    destruct (split ":" (a +:+ ":" +:+ b)); simpl in *; lia.
Qed.

Lemma endswith_unfold (s suffix : string) :
  endswith s suffix
  = if String.eqb s suffix then true
    else match s with
         | EmptyString => false
         | String _ s' => endswith s' suffix
         end.
Proof. destruct s; reflexivity. Qed.

Lemma endswith_app (p n : string) : endswith (p +:+ n) n = true.
Proof.
  induction p as [|c p IH]; rewrite endswith_unfold.
  - now rewrite string_app_nil_l, String.eqb_refl.
  - rewrite string_app_cons.
    destruct (String.eqb (String c (p +:+ n)) n); [reflexivity | exact IH].
Qed.

Lemma kiwi_additional_tags_loop_splits (name : string) (buildtags : list string)
  (extra_tags : list string) :
  Forall tag_splits buildtags ->
  exists more,
    kiwi_additional_tags_loop name buildtags extra_tags = Ok (extra_tags ++ more).
Proof.
  intros H. revert extra_tags.
  induction H as [|buildtag buildtags [path [tag [-> [Hp Ht]]]] H IH];
    intros extra_tags.
  - exists []. simpl. now rewrite app_nil_r.
  - simpl. rewrite split_app_colon, split_no_colon by assumption.
    destruct (endswith path name).
    + destruct (IH (extra_tags ++ [tag])) as [more Hm].
      exists (tag :: more). rewrite Hm. now rewrite <- app_assoc.
    + apply IH.
Qed.

(** The loop keeps the tag part of every build tag of the path [path] when
    [path] ends with the name. *)
Lemma kiwi_additional_tags_loop_same_path (name path : string)
  (tags extra_tags : list string) :
  no_colon path = true ->
  forallb no_colon tags = true ->
  endswith path name = true ->
  kiwi_additional_tags_loop name
    (map (fun tag => path +:+ ":" +:+ tag) tags) extra_tags
  = Ok (extra_tags ++ tags).
Proof.
  intros Hp Ht He. revert extra_tags.
  induction tags as [|tag tags IH]; intros extra_tags.
  - simpl. now rewrite app_nil_r.
  - simpl in Ht. apply andb_true_iff in Ht. destruct Ht as [Ht Hts].
    simpl. rewrite split_app_colon, split_no_colon by assumption.
    rewrite He, IH by assumption. now rewrite <- app_assoc.
Qed.

Lemma forallb_no_colon_Forall (l : list string) :
  forallb no_colon l = true <-> Forall (fun s => no_colon s = true) l.
Proof.
  rewrite forallb_forall, Forall_forall.
  split; intros H x Hx; apply H; now apply list_elem_of_In.
Qed.

Lemma string_app_assoc4 (a b c d : string) :
  a +:+ b +:+ c +:+ d = (a +:+ b +:+ c) +:+ d.
Proof. now rewrite !string_app_assoc. Qed.

Lemma LanguageStackContainer_tags_split (self : LanguageStackContainer)
  (n : string) :
  no_colon (_registry_prefix self) = true ->
  no_colon (LanguageStackContainer_version_label self) = true ->
  forallb no_colon (additional_versions self) = true ->
  no_colon n = true ->
  LanguageStackContainer_tags_of_name self n
  = map (fun tag => (_registry_prefix self +:+ "/" +:+ n) +:+ ":" +:+ tag)
        ([LanguageStackContainer_version_label self]
         ++ primary_tags_after_first (LanguageStack self))
    /\ no_colon (_registry_prefix self +:+ "/" +:+ n) = true
    /\ forallb no_colon
         ([LanguageStackContainer_version_label self]
          ++ primary_tags_after_first (LanguageStack self)) = true.
Proof.
  intros Hp Hv Hvs Hn. split; [|split].
  - unfold LanguageStackContainer_tags_of_name, primary_tags_after_first.
    rewrite (map_ext
               (fun tag => (_registry_prefix self +:+ "/" +:+ n) +:+ ":" +:+ tag)
               (fun ver => _registry_prefix self +:+ "/" +:+ n +:+ ":" +:+ ver))
      by (intros ver; now rewrite !string_app_assoc).
    destruct (is_latest self); cbn [app map]; rewrite ?map_app; reflexivity.
  - rewrite !no_colon_app, Hp, Hn. reflexivity.
  - unfold primary_tags_after_first.
    rewrite !forallb_app. cbn [forallb]. rewrite no_colon_app, Hv, Hvs.
    now destruct (is_latest self).
Qed.

Lemma OsContainer_tags_split (self : BaseContainerImage) (n : string) :
  no_colon n = true ->
  OsContainer_tags_of_name self n
  = map (fun tag => ("bci/bci-" +:+ n) +:+ ":" +:+ tag)
        (["%OS_VERSION_ID_SP%"] ++ primary_tags_after_first (Os self))
    /\ no_colon ("bci/bci-" +:+ n) = true
    /\ forallb no_colon
         (["%OS_VERSION_ID_SP%"] ++ primary_tags_after_first (Os self)) = true.
Proof.
  intros Hn. split; [|split].
  - unfold OsContainer_tags_of_name, primary_tags_after_first.
    destruct (is_latest self); cbn [app map];
      rewrite !string_app_assoc; reflexivity.
  - now rewrite no_colon_app, Hn.
  - unfold primary_tags_after_first. now destruct (is_latest self).
Qed.

Lemma kiwi_additional_tags_loop_app (name : string) (l1 l2 extra_tags : list string) :
  kiwi_additional_tags_loop name (l1 ++ l2) extra_tags
  = kiwi_additional_tags_loop name l1 extra_tags
    ≫= kiwi_additional_tags_loop name l2.
Proof.
  revert extra_tags. induction l1 as [|t l1 IH]; intros extra_tags;
    [reflexivity|].
  simpl. destruct (split ":" t) as [|a [|b [|c l]]]; try reflexivity.
  apply IH.
Qed.

Lemma endswith_registry_path (i : Image) (n : string) :
  endswith (registry_path i n) n = true.
Proof.
  destruct i as [c|c|c]; unfold registry_path; [| |apply endswith_app];
    rewrite <- string_app_assoc; apply endswith_app.
Qed.

(** The build tags of a descriptor without colons: for every name, one tag
    per tag part, the same parts for every name. *)
Lemma build_tags_shape (i : Image) :
  colon_free i = true ->
  exists first,
    build_tags i
    = concat (map (fun n => map (fun tag => registry_path i n +:+ ":" +:+ tag)
                                (first :: primary_tags_after_first i))
                  (names i))
    /\ forallb no_colon (first :: primary_tags_after_first i) = true
    /\ Forall (fun n => no_colon (registry_path i n) = true) (names i).
Proof.
  unfold colon_free. intros H. apply andb_true_iff in H.
  destruct H as [Hn H]. fold (names i) in Hn.
  apply forallb_no_colon_Forall in Hn.
  destruct i as [c|c|c]; simpl build_tags; simpl registry_path;
    cbn [base_of] in *.
  - apply andb_true_iff in H. destruct H as [H Hvs].
    apply andb_true_iff in H. destruct H as [Hp Hv].
    exists (LanguageStackContainer_version_label c).
    rewrite LanguageStackContainer_build_tags_concat.
    split; [|split].
    + f_equal. apply map_ext_in. intros n Hin.
      apply LanguageStackContainer_tags_split; try assumption.
      rewrite Forall_forall in Hn. apply Hn. now apply list_elem_of_In.
    + apply (LanguageStackContainer_tags_split c "" Hp Hv Hvs eq_refl).
    + eapply Forall_impl; [exact Hn|]. intros n Hc.
      now apply LanguageStackContainer_tags_split.
  - apply andb_true_iff in H. destruct H as [H Hvs].
    apply andb_true_iff in H. destruct H as [Hp Hv].
    exists (LanguageStackContainer_version_label c).
    rewrite LanguageStackContainer_build_tags_concat.
    split; [|split].
    + f_equal. apply map_ext_in. intros n Hin.
      apply LanguageStackContainer_tags_split; try assumption.
      rewrite Forall_forall in Hn. apply Hn. now apply list_elem_of_In.
    + apply (LanguageStackContainer_tags_split c "" Hp Hv Hvs eq_refl).
    + eapply Forall_impl; [exact Hn|]. intros n Hc.
      now apply LanguageStackContainer_tags_split.
  - exists "%OS_VERSION_ID_SP%".
    rewrite OsContainer_build_tags_concat.
    split; [|split].
    + f_equal. apply map_ext_in. intros n Hin.
      apply OsContainer_tags_split.
      rewrite Forall_forall in Hn. apply Hn. now apply list_elem_of_In.
    + apply (OsContainer_tags_split c "" eq_refl).
    + eapply Forall_impl; [exact Hn|]. intros n Hc.
      now apply OsContainer_tags_split.
Qed.

Lemma primary_tags_after_first_nonempty (i : Image) :
  primary_tags_after_first i <> [].
Proof.
  destruct i as [c|c|c]; simpl; try discriminate;
    destruct (is_latest c); discriminate.
Qed.

(** What [kiwi_additional_tags] collects for a descriptor without colons:
    the tag parts of the primary name after the first, then those of the
    additional names whose path ends with the primary name. *)
Lemma kiwi_additional_tags_collects (i : Image) :
  colon_free i = true ->
  exists more,
    kiwi_additional_tags_loop (name i) (tail (build_tags i)) []
    = Ok (primary_tags_after_first i ++ more)
    /\ (additional_names i = [] -> more = []).
Proof.
  intros H. destruct (build_tags_shape i H) as [first [Hb [Hc Hp]]].
  rewrite Hb. unfold names. cbn [map concat tail app].
  cbn [forallb] in Hc. apply andb_true_iff in Hc. destruct Hc as [Hf Ha].
  inversion Hp as [|? ? Hp1 Hps]; subst.
  rewrite kiwi_additional_tags_loop_app.
  rewrite kiwi_additional_tags_loop_same_path;
    [|assumption|assumption|apply endswith_registry_path].
  cbn [mbind result_bind app].
  destruct (additional_names i) as [|n ns] eqn:En.
  - exists []. split; [|reflexivity]. simpl. now rewrite app_nil_r.
  - match goal with
    | |- context [kiwi_additional_tags_loop _ ?l _] =>
        destruct (kiwi_additional_tags_loop_splits (name i) l
                    (primary_tags_after_first i)) as [more Hm]
    end.
    + apply Forall_concat, Forall_map.
      eapply Forall_impl; [exact Hps|]. intros n' Hn'. cbn beta.
      apply Forall_forall. intros t Ht.
      apply list_elem_of_In in Ht.
      change (In t (map (fun tag => registry_path i n' +:+ ":" +:+ tag)
                        (first :: primary_tags_after_first i))) in Ht.
      apply in_map_iff in Ht. destruct Ht as [tag [<- Htag]].
      exists (registry_path i n'), tag. split; [reflexivity|].
      split; [assumption|].
      destruct Htag as [<-|Htag]; [assumption|].
      rewrite forallb_forall in Ha. now apply Ha.
    + exists more. split; [exact Hm | discriminate].
Qed.

(** X8: for a descriptor whose names, registry prefix and versions hold no
    colon, [kiwi_additional_tags] neither raises nor returns [None]: it
    returns a comma-separated list that starts with the tags of the primary
    name after the first build tag. *)
Theorem kiwi_additional_tags_Some (i : Image) :
  colon_free i = true ->
  exists more,
    kiwi_additional_tags i
    = Ok (Some (String.concat "," (primary_tags_after_first i ++ more))).
Proof.
  intros H. destruct (kiwi_additional_tags_collects i H) as [more [Hm _]].
  exists more. unfold kiwi_additional_tags. rewrite Hm.
  cbn [mbind result_bind].
  pose proof (primary_tags_after_first_nonempty i) as Hne.
  destruct (primary_tags_after_first i); [now elim Hne | reflexivity].
Qed.

Lemma kiwi_additional_tags_Some_witness :
  exists more,
    kiwi_additional_tags (LanguageStack NODE_14_SP4_args)
    = Ok (Some (String.concat "," (["14-%RELEASE%"] ++ more))).
Proof.
  apply (kiwi_additional_tags_Some (LanguageStack NODE_14_SP4_args)).
  reflexivity.
Defined.

(** X9: for such a descriptor without additional names,
    [kiwi_additional_tags] is the comma-separated list of the tag parts of
    all build tags but the first. *)
Theorem kiwi_additional_tags_single_name (i : Image) :
  colon_free i = true ->
  additional_names i = [] ->
  kiwi_additional_tags i
  = Ok (Some (String.concat "," (primary_tags_after_first i))).
Proof.
  intros H Ha. destruct (kiwi_additional_tags_collects i H) as [more [Hm Hn]].
  rewrite (Hn Ha), app_nil_r in Hm.
  unfold kiwi_additional_tags. rewrite Hm. cbn [mbind result_bind].
  pose proof (primary_tags_after_first_nonempty i) as Hne.
  destruct (primary_tags_after_first i); [now elim Hne | reflexivity].
Qed.

Lemma kiwi_additional_tags_single_name_witness :
  kiwi_additional_tags (LanguageStack GOLANG_1_17_SP3_args)
  = Ok (Some "latest,1.17-%RELEASE%").
Proof.
  apply (kiwi_additional_tags_single_name (LanguageStack GOLANG_1_17_SP3_args));
    reflexivity.
Defined.

(** The second build tag is a tag of the primary name. *)
Lemma build_tags_second (i : Image) :
  exists t1 tag rest,
    build_tags i = t1 :: (registry_path i (name i) +:+ ":" +:+ tag) :: rest.
Proof.
  destruct i as [c|c|c]; simpl build_tags; simpl registry_path;
    rewrite ?LanguageStackContainer_build_tags_concat,
      ?OsContainer_build_tags_concat;
    unfold names; cbn [map concat];
    unfold LanguageStackContainer_tags_of_name, OsContainer_tags_of_name;
    cbn [base_of]; destruct (is_latest c); cbn [app];
    do 3 eexists; f_equal; f_equal; rewrite !string_app_assoc; reflexivity.
Qed.

(** X10: when the name of a descriptor holds a colon,
    [kiwi_additional_tags] raises [ValueError]: the second build tag splits
    in more than two parts. *)
Theorem kiwi_additional_tags_colon_in_name (i : Image) :
  no_colon (name i) = false ->
  kiwi_additional_tags i
  = Raise (ValueError "too many values to unpack (expected 2)").
Proof.
  intros H. destruct (build_tags_second i) as [t1 [tag [rest Hb]]].
  unfold kiwi_additional_tags. rewrite Hb. cbn [tail kiwi_additional_tags_loop].
  assert (Hp : no_colon (registry_path i (name i)) = false).
  { destruct i as [c|c|c]; simpl; rewrite ?no_colon_app; cbn [base_of] in *;
      rewrite H; now rewrite ?andb_false_r. }
  pose proof (split_length_colon _ tag Hp) as Hl.
  destruct (split ":" (registry_path i (name i) +:+ ":" +:+ tag))
    as [|a [|b [|c l]]]; simpl in Hl; try lia.
  reflexivity.
Qed.

Lemma kiwi_additional_tags_colon_in_name_witness :
  kiwi_additional_tags (Os MINIMAL_SP3_colon_args)
  = Raise (ValueError "too many values to unpack (expected 2)").
Proof.
  apply (kiwi_additional_tags_colon_in_name (Os MINIMAL_SP3_colon_args)).
  reflexivity.
Defined.

(** ** More on [write_files_to_folder] *)

(** X12: a file name that starts with a slash is written at that absolute
    path, whatever the destination; any other file name is written at a
    path that starts with the destination. In both cases the path ends with
    the file name. *)
Theorem os_path_join_absolute_or_below (dest fname : string) :
  (if startswith_sep fname
   then os_path_join dest fname = fname
   else String.prefix dest (os_path_join dest fname) = true)
  /\ exists p, os_path_join dest fname = p +:+ fname.
Proof.
  unfold os_path_join. destruct (startswith_sep fname).
  - split; [reflexivity|]. now exists "".
  - destruct (negb (str_bool dest) || endswith_sep dest).
    + split; [apply prefix_app|]. now exists dest.
    + split; [apply prefix_app|]. exists (dest +:+ "/").
      now rewrite string_app_assoc.
Qed.

Section WriteFilesFurther.

Variable lookup_path : string -> location.
Variables DOCKERFILE_TEMPLATE KIWI_TEMPLATE SERVICE_TEMPLATE : Image -> result string.
Variable year : string.













End WriteFilesFurther.



(** ** Writing the same descriptor again *)




Section WriteFilesTwice.

Variable lookup_path : string -> location.
Variables DOCKERFILE_TEMPLATE KIWI_TEMPLATE SERVICE_TEMPLATE : Image -> result string.
Variables year1 year2 : string.



End WriteFilesTwice.


(** The exception of [write_files_to_folder_twice] is needed: in that
    example the second call leaves another [config.sh] than the first. *)
Lemma write_files_to_folder_twice_config_sh_differs :
  let first :=
    run_in_order (single_directory "out") "out"
      (snd (schedule_writes (single_directory "out")
              (constant_template "Dockerfile text")
              (constant_template "kiwi text")
              (constant_template "service text")
              "2021" (Os MINIMAL_SP3_script_args) "out" ∅)) ∅ in
  let second :=
    run_in_order (single_directory "out") "out"
      (snd (schedule_writes (single_directory "out")
              (constant_template "Dockerfile text")
              (constant_template "kiwi text")
              (constant_template "service text")
              "2022" (Os MINIMAL_SP3_script_args) "out" first)) first in
  single_directory "out" (os_path_join "out" "config.sh")
  = Slot "/out/config.sh"
  /\ first !! "/out/config.sh" = Some (Text (config_sh_head +:+ "2021"
       +:+ config_sh_middle +:+ "zypper clean" +:+ config_sh_tail))
  /\ second !! "/out/config.sh" = Some (Text (config_sh_head +:+ "2022"
       +:+ config_sh_middle +:+ "zypper clean" +:+ config_sh_tail))
  /\ first !! "/out/config.sh" <> second !! "/out/config.sh".
Proof.
  cbv zeta. split; [reflexivity|].
  assert (H1 : run_in_order (single_directory "out") "out"
      (snd (schedule_writes (single_directory "out")
              (constant_template "Dockerfile text")
              (constant_template "kiwi text")
              (constant_template "service text")
              "2021" (Os MINIMAL_SP3_script_args) "out" ∅)) ∅
      !! "/out/config.sh"
      = Some (Text (config_sh_head +:+ "2021"
          +:+ config_sh_middle +:+ "zypper clean" +:+ config_sh_tail)))
    by (vm_compute; reflexivity).
  split; [exact H1|]. rewrite H1.
  assert (H2 : run_in_order (single_directory "out") "out"
      (snd (schedule_writes (single_directory "out")
              (constant_template "Dockerfile text")
              (constant_template "kiwi text")
              (constant_template "service text")
              "2022" (Os MINIMAL_SP3_script_args) "out"
              (run_in_order (single_directory "out") "out"
                 (snd (schedule_writes (single_directory "out")
                         (constant_template "Dockerfile text")
                         (constant_template "kiwi text")
                         (constant_template "service text")
                         "2021" (Os MINIMAL_SP3_script_args) "out" ∅)) ∅)))
      (run_in_order (single_directory "out") "out"
         (snd (schedule_writes (single_directory "out")
                 (constant_template "Dockerfile text")
                 (constant_template "kiwi text")
                 (constant_template "service text")
                 "2021" (Os MINIMAL_SP3_script_args) "out" ∅)) ∅)
      !! "/out/config.sh"
      = Some (Text (config_sh_head +:+ "2022"
          +:+ config_sh_middle +:+ "zypper clean" +:+ config_sh_tail)))
    by (vm_compute; reflexivity).
  split; [exact H2|]. rewrite H2.
  vm_compute. intros H. discriminate H.
Qed.

(** ** The tail of the Dockerfile *)

(** X16: for a descriptor that passed the validation of
    [BaseContainerImage.__post_init__], a script is never dropped: the tail
    of the Dockerfile is [RUN] followed by the script, and [config_sh]
    returns a text that holds the script between its fixed head and tail. *)
Theorem validated_script_reaches_both_recipes (args : BaseContainerImage)
  (i : Image) (year : string) :
  new_OsContainer args = Ok i ->
  config_sh_script i <> "" ->
  dockerfile_custom_end i = "RUN " +:+ config_sh_script i
  /\ config_sh year i
     = Ok (config_sh_head +:+ year +:+ config_sh_middle
           +:+ config_sh_script i +:+ config_sh_tail).
Proof.
  rewrite new_OsContainer_cases.
  destruct (negb (list_bool (package_list args))); [discriminate|].
  destruct (str_bool (config_sh_script args) && str_bool (custom_end args))
    eqn:Eb; [discriminate|].
  intros [= <-]. cbn [base_of]. intros Hs.
  apply str_bool_true in Hs.
  rewrite Hs in Eb. simpl in Eb.
  unfold dockerfile_custom_end, config_sh. now rewrite Eb, Hs.
Qed.

Lemma validated_script_reaches_both_recipes_witness :
  dockerfile_custom_end MINIMAL_SP3_script_args = "RUN zypper clean".
Proof.
  apply (validated_script_reaches_both_recipes MINIMAL_SP3_script_args
           (Os MINIMAL_SP3_script_args) "2021").
  - reflexivity.
  - discriminate.
Defined.
